(** * yahoo_fantasy_api.yhandler: the request builder of the Yahoo Fantasy client

    A shallow embedding of [src/yahoo_fantasy_api/yhandler.py].  The handler
    formats resource paths, hands them to an injected OAuth session, and
    checks what comes back.  Python strings are [string], Python ints are
    [Z], optional arguments ([None] by default) are [option], and raising is
    the [Raise] branch of [outcome].  The session is a collaborator that is
    not part of the repository: the methods are written over an arbitrary
    one, and the calls made on it are recorded.

    A character of a [string] stands for one character (one code point)
    of the Python [str]; the strs of the model are those of characters
    below 256.  Formatting, [find], [join] and concatenation work character
    by character, and an index into a string counts characters. *)

From Stdlib Require Import ZArith List String Ascii Bool Lia.
From Stdlib Require Import Strings.Byte.
From Stdlib Require Import Decimal DecimalFacts DecimalString DecimalPos DecimalZ.
Import ListNotations.
Open Scope string_scope.
Open Scope Z_scope.
#[local] Set Warnings "-register-all".

(** ** Python values that reach this module *)

Module Py.

(** The arguments that are interpolated into paths: [str] and [int]. *)
Inductive pyval : Type :=
| VStr (s : string)
| VInt (z : Z).

Definition bytes : Type := list byte.

(** The payload of an exception: [json.dumps] gives a [str],
    [response.content] is [bytes]. *)
Inductive payload : Type :=
| PStr (s : string)
| PBytes (b : bytes).

(** An exception is its class and the argument it was built with. *)
Record exn : Type := Exn { exn_class : string; exn_arg : option payload }.

Definition RuntimeError (p : payload) : exn := Exn "RuntimeError" (Some p).
Definition TypeError : exn := Exn "TypeError" None.
Definition ValueError : exn := Exn "ValueError" None.
Definition IndexError : exn := Exn "IndexError" None.
(** Replacement fields other than the automatic [{}] are outside the model. *)
Definition NotModelled : exn := Exn "NotModelled" None.

Inductive outcome (A : Type) : Type :=
| Return (a : A)
| Raise (e : exn).
Arguments Return {A} a.
Arguments Raise {A} e.

(** The decimal numeral of an int: a minus sign for a negative one, then
    the digits, with no leading zero. *)
Definition decimal (z : Z) : string := NilZero.string_of_int (Z.to_int z).

(** The number of digits of an int, the sign not counted. *)
Definition digits (z : Z) : nat := length (decimal (Z.abs z)).

(** CPython converts an int to text only up to this many digits
    ([sys.get_int_max_str_digits()], 4300 unless it is changed). *)
Definition int_max_str_digits : nat := 4300.

(** [str(x)], which is also what an empty format spec yields.  A [str] is
    itself; an int is its decimal numeral, and a [ValueError] when it has
    more digits than the limit. *)
Definition str (v : pyval) : outcome string :=
  match v with
  | VStr s => Return s
  | VInt z =>
      if (int_max_str_digits <? digits z)%nat then Raise ValueError
      else Return (decimal z)
  end.

(** A list comprehension [[f(x) for x in l]]: the first element on which
    [f] raises ends it. *)
Fixpoint comprehension {A B} (f : A -> outcome B) (l : list A)
    : outcome (list B) :=
  match l with
  | [] => Return []
  | x :: l' =>
      match f x with
      | Raise e => Raise e
      | Return y =>
          match comprehension f l' with
          | Raise e => Raise e
          | Return ys => Return (y :: ys)
          end
      end
  end.

(** *** [str.format] with automatic fields

    The template is scanned left to right.  [{}] takes the next positional
    argument and formats it as [str] does, [{{] and [}}] are escaped
    braces, a lone brace is a [ValueError], too few arguments an
    [IndexError]; surplus arguments are ignored.  The text of an argument
    is never scanned. *)
Fixpoint format (tmpl : string) (args : list pyval) : outcome string :=
  match tmpl with
  | EmptyString => Return EmptyString
  | String "{" (String "}" rest) =>
      match args with
      | [] => Raise IndexError
      | a :: args' =>
          match str a with
          | Raise e => Raise e
          | Return t =>
              match format rest args' with
              | Return s => Return (t ++ s)
              | Raise e => Raise e
              end
          end
      end
  | String "{" (String "{" rest) =>
      match format rest args with
      | Return s => Return (String "{" s)
      | Raise e => Raise e
      end
  | String "{" EmptyString => Raise ValueError
  | String "{" (String _ _) => Raise NotModelled
  | String "}" (String "}" rest) =>
      match format rest args with
      | Return s => Return (String "}" s)
      | Raise e => Raise e
      end
  | String "}" _ => Raise ValueError
  | String c rest =>
      match format rest args with
      | Return s => Return (String c s)
      | Raise e => Raise e
      end
  end.

(** *** [str.find], slices and [str.join] *)

(** [s.find(sub)]: the lowest index of [sub] in [s], or [-1]. *)
Definition find (s sub : string) : Z :=
  match index 0 sub s with
  | Some n => Z.of_nat n
  | None => -1
  end.

(** [s[i:j]]: a negative bound counts from the end, and both bounds are
    clamped to the string.  The bounds count the characters of the
    string. *)
Definition slice_bound (len i : Z) : Z :=
  let i' := if i <? 0 then i + len else i in
  Z.max 0 (Z.min len i').

Definition slice (s : string) (i j : Z) : string :=
  let len := Z.of_nat (length s) in
  let lo := slice_bound len i in
  let hi := slice_bound len j in
  substring (Z.to_nat lo) (Z.to_nat (hi - lo)) s.

(** [sep.join(parts)] *)
Definition join (sep : string) (parts : list string) : string :=
  concat sep parts.

(** *** [datetime.date] and [strftime]

    A [date] holds a proleptic Gregorian year, month and day; the
    constructor of [datetime.date] accepts exactly the [valid] ones. *)
Record date : Type := Date { year : Z; month : Z; day : Z }.

Definition is_leap (y : Z) : bool :=
  ((y mod 4 =? 0) && negb (y mod 100 =? 0)) || (y mod 400 =? 0).

Definition days_in_month (y m : Z) : Z :=
  if m =? 2 then (if is_leap y then 29 else 28)
  else if (m =? 4) || (m =? 6) || (m =? 9) || (m =? 11) then 30
  else 31.

Definition valid (d : date) : bool :=
  (1 <=? year d) && (year d <=? 9999) &&
  (1 <=? month d) && (month d <=? 12) &&
  (1 <=? day d) && (day d <=? days_in_month (year d) (month d)).

(** Left padding with zeros up to [width] characters. *)
Fixpoint zeros (n : nat) : string :=
  match n with
  | O => EmptyString
  | S n' => String "0" (zeros n')
  end.

Definition zfill (width : nat) (s : string) : string :=
  zeros (width - length s) ++ s.

(** [d.strftime(fmt)] for the directives of a date, as the C library of
    CPython on Linux formats them: [%Y] is the year as a decimal numeral
    without padding (999 for the year 999), [%m] and [%d] are the month and
    the day on two digits, [%%] is a percent sign. *)
Fixpoint strftime (fmt : string) (d : date) : outcome string :=
  match fmt with
  | EmptyString => Return EmptyString
  | String "%" (String c rest) =>
      let field :=
        if Ascii.eqb c "Y" then Return (decimal (year d))
        else if Ascii.eqb c "m" then Return (zfill 2 (decimal (month d)))
        else if Ascii.eqb c "d" then Return (zfill 2 (decimal (day d)))
        else if Ascii.eqb c "%" then Return "%"
        else Raise NotModelled in
      match field, strftime rest d with
      | Return f, Return s => Return (f ++ s)
      | Raise e, _ => Raise e
      | _, Raise e => Raise e
      end
  | String c rest =>
      match strftime rest d with
      | Return s => Return (String c s)
      | Raise e => Raise e
      end
  end.

(** *** Parsed JSON and the [in] operator

    What [response.json()] can return.  A [dict] keeps its items in
    insertion order; a float is carried by its [repr]. *)
Inductive jvalue : Type :=
| JNull
| JBool (b : bool)
| JInt (z : Z)
| JFloat (repr : string)
| JStr (s : string)
| JList (elems : list jvalue)
| JDict (items : list (string * jvalue)).

Definition is_str (needle : string) (j : jvalue) : bool :=
  match j with
  | JStr s => String.eqb s needle
  | _ => false
  end.

(** [needle in j] for a [str] needle: key membership in a dict, element
    membership in a list, substring test in a string, and a [TypeError] on
    anything that is not a container. *)
Definition contains (needle : string) (j : jvalue) : outcome bool :=
  match j with
  | JDict items => Return (existsb (fun kv => String.eqb (fst kv) needle) items)
  | JList elems => Return (existsb (is_str needle) elems)
  | JStr s => Return (match index 0 needle s with Some _ => true | None => false end)
  | JNull | JBool _ | JInt _ | JFloat _ => Raise TypeError
  end.

End Py.

(** ** The session collaborator *)

Module Http.
Import Py.

Inductive verb : Type := GET | PUT | POST.

(** One call on [sc.session]: the URL and the keyword arguments
    [params], [data] and [headers] (absent ones are empty). *)
Record request : Type := Request {
  req_verb : verb;
  req_url : string;
  req_params : list (string * string);
  req_data : option string;
  req_headers : list (string * string)
}.

(** The response object, as far as the handler looks at it:
    [status_code], [content], and what calling [json()] does. *)
Record response : Type := Response {
  status_code : Z;
  content : bytes;
  json : outcome jvalue
}.

(** The session answers a call with a response or raises.  The answer may
    depend on the calls made before. *)
Definition session : Type := list request -> request -> outcome response.

(** Computations that call the session: the calls made so far are threaded
    through, and an exception ends the computation. *)
Definition M (A : Type) : Type := list request -> outcome A * list request.

Definition ret {A} (a : A) : M A := fun h => (Return a, h).

Definition raise {A} (e : exn) : M A := fun h => (Raise e, h).

Definition bind {A B} (m : M A) (f : A -> M B) : M B :=
  fun h =>
    match m h with
    | (Return a, h') => f a h'
    | (Raise e, h') => (Raise e, h')
    end.

Definition lift {A} (o : outcome A) : M A := fun h => (o, h).

Definition send (sc : session) (r : request) : M response :=
  fun h => (sc h r, (h ++ [r])%list).

End Http.

Notation "x <- m ;; k" := (Http.bind m (fun x => k))
  (at level 61, m at next level, right associativity).

(** ** The handler *)

Module YHandler.
Import Py Http.

Definition YAHOO_ENDPOINT : string :=
  "https://fantasysports.yahooapis.com/fantasy/v2".

Section Methods.

(** [json.dumps] belongs to the standard library; the handler only passes
    its result on. *)
Variable json_dumps : jvalue -> string.

(** [self.sc.session] *)
Variable sc : session.

Definition get (uri : string) : M jvalue :=
  url <- lift (format "{}/{}" [VStr YAHOO_ENDPOINT; VStr uri]) ;;
  response <- send sc (Request GET url [("format", "json")] None []) ;;
  jresp <- lift (json response) ;;
  is_error <- lift (contains "error" jresp) ;;
  if (is_error : bool)
  then raise (RuntimeError (PStr (json_dumps jresp)))
  else ret jresp.

Definition put (uri data : string) : M response :=
  let headers := [("Content-Type", "application/xml")] in
  url <- lift (format "{}/{}" [VStr YAHOO_ENDPOINT; VStr uri]) ;;
  response <- send sc (Request PUT url [] (Some data) headers) ;;
  if negb (status_code response =? 200)
  then raise (RuntimeError (PBytes (content response)))
  else ret response.

Definition post (uri data : string) : M response :=
  let headers := [("Content-Type", "application/xml")] in
  url <- lift (format "{}/{}" [VStr YAHOO_ENDPOINT; VStr uri]) ;;
  response <- send sc (Request POST url [] (Some data) headers) ;;
  if negb (status_code response =? 201)
  then raise (RuntimeError (PBytes (content response)))
  else ret response.

Definition get_teams_raw : M jvalue :=
  get "users;use_login=1/games/teams".

Definition get_standings_raw (league_id : string) : M jvalue :=
  uri <- lift (format "league/{}/standings" [VStr league_id]) ;;
  get uri.

Definition get_settings_raw (league_id : string) : M jvalue :=
  uri <- lift (format "league/{}/settings" [VStr league_id]) ;;
  get uri.

Definition get_matchup_raw (team_key : string) (week : Z) : M jvalue :=
  uri <- lift (format "team/{}/matchups;weeks={}" [VStr team_key; VInt week]) ;;
  get uri.

Definition get_roster_raw (team_key : string) (week : option Z)
    (day : option date) : M jvalue :=
  param <-
    match week with
    | Some w => lift (format ";week={}" [VInt w])
    | None =>
        match day with
        | Some d =>
            ymd <- lift (strftime "%Y-%m-%d" d) ;;
            lift (format ";date={}" [VStr ymd])
        | None => ret EmptyString
        end
    end ;;
  uri <- lift (format "team/{}/roster{}" [VStr team_key; VStr param]) ;;
  get uri.

Definition get_scoreboard_raw (league_id : string) (week : option Z)
    : M jvalue :=
  week_uri <-
    match week with
    | Some w => lift (format ";week={}" [VInt w])
    | None => ret EmptyString
    end ;;
  uri <- lift (format "league/{}/scoreboard{}" [VStr league_id; VStr week_uri]) ;;
  get uri.

Definition get_players_raw (league_id : string) (start : Z) (status : string)
    (position : option string) : M jvalue :=
  pos_parm <-
    match position with
    | None => ret EmptyString
    | Some p => lift (format ";position={}" [VStr p])
    end ;;
  uri <- lift (format
           "league/{}/players;start={};count=25;status={}{}/percent_owned"
           [VStr league_id; VInt start; VStr status; VStr pos_parm]) ;;
  get uri.

Definition get_player_raw (league_id : string) (player_name : option string)
    : M jvalue :=
  player_stat_uri <-
    match player_name with
    | Some n => lift (format "players;search={}/stats" [VStr n])
    | None => ret EmptyString
    end ;;
  uri <- lift (format "league/{}/{}" [VStr league_id; VStr player_stat_uri]) ;;
  get uri.

Definition get_percent_owned_raw (league_id : string)
    (player_ids : list pyval) : M jvalue :=
  let lg_pref := slice league_id 0 (find league_id ".") in
  keys <- lift (comprehension
                  (fun i => match str i with
                            | Return t => Return (lg_pref ++ ".p." ++ t)
                            | Raise e => Raise e
                            end) player_ids) ;;
  let joined_ids := join "," keys in
  uri <- lift (format "league/{}/players;player_keys={}/percent_owned"
                 [VStr league_id; VStr joined_ids]) ;;
  get uri.

Definition put_roster (team_key xml : string) : M response :=
  uri <- lift (format "team/{}/roster" [VStr team_key]) ;;
  put uri xml.

Definition post_transactions (league_id xml : string) : M response :=
  uri <- lift (format "league/{}/transactions" [VStr league_id]) ;;
  post uri xml.

End Methods.

End YHandler.

(** ** What the specification says, in its own words

    These definitions follow the wording of the specification, not the
    code; the theorems below compare the handler with them. *)

Module Spec.
Import Py Http.

(** "The full URL is the fixed prefix, a '/', then the given path." *)
Definition api_url (path : string) : string :=
  YHandler.YAHOO_ENDPOINT ++ "/" ++ path.

(** "All GET calls append format=json." *)
Definition get_call (path : string) : request :=
  Request GET (api_url path) [("format", "json")] None [].

(** "Content type for mutating calls: application/xml; caller supplies a
    pre-built XML payload string." *)
Definition put_call (path payload : string) : request :=
  Request PUT (api_url path) [] (Some payload)
    [("Content-Type", "application/xml")].

Definition post_call (path payload : string) : request :=
  Request POST (api_url path) [] (Some payload)
    [("Content-Type", "application/xml")].

(** "The parsed body contains the key": an object with that member. *)
Definition has_key (k : string) (items : list (string * jvalue)) : Prop :=
  In k (map fst items).

(** The keys of a parsed body: those of an object; an array, a string, a
    number, a boolean and [null] have none. *)
Definition keys (j : jvalue) : list string :=
  match j with
  | JDict items => map fst items
  | _ => []
  end.

(** "YYYY-MM-DD": four digits of year, two of month, two of day. *)
Definition digit (n : Z) : ascii := ascii_of_N (48 + Z.to_N (n mod 10)).

Definition four_digits (n : Z) : string :=
  String (digit (n / 1000)) (String (digit (n / 100))
  (String (digit (n / 10)) (String (digit n) EmptyString))).

Definition two_digits (n : Z) : string :=
  String (digit (n / 10)) (String (digit n) EmptyString).

Definition iso_date (d : date) : string :=
  four_digits (year d) ++ "-" ++ two_digits (month d) ++ "-"
    ++ two_digits (day d).

(** "{n}" for an int: its decimal numeral, read off the number by
    dividing by ten; the last digit is [n mod 10], the ones before it are
    the numeral of [n / 10]. *)
Fixpoint numeral (fuel : nat) (n : Z) (acc : string) : string :=
  match fuel with
  | O => acc
  | S fuel' =>
      if n <=? 0 then acc
      else numeral fuel' (n / 10) (String (digit n) acc)
  end.

(** More steps than a positive number has digits. *)
Definition enough (n : Z) : nat := S (Z.to_nat (Z.log2 n)).

Definition decimal (z : Z) : string :=
  if z =? 0 then "0"
  else if z <? 0 then String "-" (numeral (enough (- z)) (- z) EmptyString)
  else numeral (enough z) z EmptyString.

(** An int that Python can write out: at most 4300 digits. *)
Definition digit_count (z : Z) : nat := length (decimal (Z.abs z)).

Definition renders_int (z : Z) : bool := (digit_count z <=? 4300)%nat.

(** A [str] is always written out as it is. *)
Definition renders (v : pyval) : bool :=
  match v with
  | VStr _ => true
  | VInt z => renders_int z
  end.

Definition text (v : pyval) : string :=
  match v with
  | VStr s => s
  | VInt z => decimal z
  end.

(** A string of characters below 128. *)
Fixpoint is_ascii (s : string) : bool :=
  match s with
  | EmptyString => true
  | String c rest => (nat_of_ascii c <? 128)%nat && is_ascii rest
  end.

(** "The substring before the first '.'": the characters that come before
    any dot (all of them when there is none). *)
Fixpoint before_dot (s : string) : string :=
  match s with
  | EmptyString => EmptyString
  | String c rest => if Ascii.eqb c "." then EmptyString
                     else String c (before_dot rest)
  end.

Fixpoint has_dot (s : string) : bool :=
  match s with
  | EmptyString => false
  | String c rest => Ascii.eqb c "." || has_dot rest
  end.

(** "Omit the position segment when position is unset." *)
Definition position_segment (position : option string) : string :=
  match position with
  | None => EmptyString
  | Some p => ";position=" ++ p
  end.

End Spec.

(** ** Concrete collaborators for the examples *)

Module Demo.
Import Py Http.

Definition dquote : ascii := ascii_of_nat 34.

Definition quote (s : string) : string :=
  String dquote (s ++ String dquote EmptyString).

(** A serializer in the layout of [json.dumps], for values whose strings
    need no escaping. *)
Fixpoint dumps (j : jvalue) : string :=
  match j with
  | JNull => "null"
  | JBool true => "true"
  | JBool false => "false"
  | JInt z => decimal z
  | JFloat r => r
  | JStr s => quote s
  | JList elems => "[" ++ join ", " (map dumps elems) ++ "]"
  | JDict items =>
      "{" ++ join ", "
               (map (fun kv => match kv with
                               | (k, v) => quote k ++ ": " ++ dumps v
                               end) items) ++ "}"
  end.

(** A session that answers every call with the same response. *)
Definition always (r : response) : session := fun _ _ => Return r.

(** A session whose transport fails. *)
Definition unreachable : session :=
  fun _ _ => Raise (Exn "ConnectionError" None).

Definition ok_body : jvalue :=
  JDict [("fantasy_content", JDict [("league", JList [])])].

Definition error_body : jvalue :=
  JDict [("error", JDict [("description", JStr "token_expired")])].

Definition xml_bytes : bytes := [x3c; x6f; x6b; x2f; x3e].

Definition json_response (code : Z) (body : jvalue) : response :=
  Response code [] (Return body).

(** A body that is not JSON: [json()] raises. *)
Definition html_response (code : Z) : response :=
  Response code [x3c; x68; x74; x6d; x6c; x3e]
    (Raise (Exn "JSONDecodeError" None)).

Definition xml_response (code : Z) : response :=
  Response code xml_bytes (Raise (Exn "JSONDecodeError" None)).

(** The session of the examples: every call is answered with status 200
    and a league object. *)
Definition yahoo : session := always (json_response 200 ok_body).

End Demo.

(** ** What a method does to the session *)

Module Calls.
Import Py Http.

(** The URL lies under the endpoint. *)
Definition under_endpoint (url : string) : bool :=
  prefix (YHandler.YAHOO_ENDPOINT ++ "/") url.

(** Whatever was called before, the computation makes exactly one call on
    the session, with the given verb and a URL under the endpoint. *)
Definition one_call {A} (v : verb) (m : M A) : Prop :=
  forall h, exists r,
    snd (m h) = (h ++ [r])%list
    /\ req_verb r = v
    /\ under_endpoint (req_url r) = true.

(** The parsed bodies that are no containers: [None], [bool], [int] and
    [float]. *)
Definition scalar (j : jvalue) : bool :=
  match j with
  | JNull | JBool _ | JInt _ | JFloat _ => true
  | JStr _ | JList _ | JDict _ => false
  end.

(** *** The operations of the handler, as one type *)

Inductive operation : Type :=
| Get (uri : string)
| Put (uri data : string)
| Post (uri data : string)
| GetTeamsRaw
| GetStandingsRaw (league_id : string)
| GetSettingsRaw (league_id : string)
| GetMatchupRaw (team_key : string) (week : Z)
| GetRosterRaw (team_key : string) (week : option Z) (day : option date)
| GetScoreboardRaw (league_id : string) (week : option Z)
| GetPlayersRaw (league_id : string) (start : Z) (status : string)
    (position : option string)
| GetPlayerRaw (league_id : string) (player_name : option string)
| GetPercentOwnedRaw (league_id : string) (player_ids : list pyval)
| PutRoster (team_key xml : string)
| PostTransactions (league_id xml : string).

(** What an operation hands back: parsed JSON or the response object. *)
Inductive result : Type :=
| Parsed (j : jvalue)
| Raw (r : response).

Definition parsed (m : M jvalue) : M result := j <- m ;; ret (Parsed j).

Definition raw (m : M response) : M result := r <- m ;; ret (Raw r).

Definition run (dumps : jvalue -> string) (sc : session) (op : operation)
    : M result :=
  match op with
  | Get uri => parsed (YHandler.get dumps sc uri)
  | Put uri data => raw (YHandler.put sc uri data)
  | Post uri data => raw (YHandler.post sc uri data)
  | GetTeamsRaw => parsed (YHandler.get_teams_raw dumps sc)
  | GetStandingsRaw league_id =>
      parsed (YHandler.get_standings_raw dumps sc league_id)
  | GetSettingsRaw league_id =>
      parsed (YHandler.get_settings_raw dumps sc league_id)
  | GetMatchupRaw team_key week =>
      parsed (YHandler.get_matchup_raw dumps sc team_key week)
  | GetRosterRaw team_key week day =>
      parsed (YHandler.get_roster_raw dumps sc team_key week day)
  | GetScoreboardRaw league_id week =>
      parsed (YHandler.get_scoreboard_raw dumps sc league_id week)
  | GetPlayersRaw league_id start status position =>
      parsed (YHandler.get_players_raw dumps sc league_id start status
                position)
  | GetPlayerRaw league_id player_name =>
      parsed (YHandler.get_player_raw dumps sc league_id player_name)
  | GetPercentOwnedRaw league_id player_ids =>
      parsed (YHandler.get_percent_owned_raw dumps sc league_id player_ids)
  | PutRoster team_key xml => raw (YHandler.put_roster sc team_key xml)
  | PostTransactions league_id xml =>
      raw (YHandler.post_transactions sc league_id xml)
  end.

Definition verb_of (op : operation) : verb :=
  match op with
  | Put _ _ | PutRoster _ _ => PUT
  | Post _ _ | PostTransactions _ _ => POST
  | _ => GET
  end.

(** The int arguments that an operation writes into its path. *)
Definition ints_of (op : operation) : list Z :=
  match op with
  | GetMatchupRaw _ week => [week]
  | GetRosterRaw _ (Some week) _ => [week]
  | GetScoreboardRaw _ (Some week) => [week]
  | GetPlayersRaw _ start _ _ => [start]
  | GetPercentOwnedRaw _ player_ids =>
      flat_map (fun i => match i with VInt z => [z] | VStr _ => [] end)
        player_ids
  | _ => []
  end.

(** What the handler makes of the session's answer to its one call: for a
    GET the parsed body unless parsing or the "error" test raises or finds
    "error"; for a PUT the response under status 200 and for a POST under
    201. *)
Definition settle (dumps : jvalue -> string) (v : verb)
    (answer : outcome response) : outcome result :=
  match answer with
  | Raise e => Raise e
  | Return r =>
      match v with
      | GET =>
          match json r with
          | Raise e => Raise e
          | Return j =>
              match contains "error" j with
              | Raise e => Raise e
              | Return true => Raise (RuntimeError (PStr (dumps j)))
              | Return false => Return (Parsed j)
              end
          end
      | PUT =>
          if status_code r =? 200 then Return (Raw r)
          else Raise (RuntimeError (PBytes (content r)))
      | POST =>
          if status_code r =? 201 then Return (Raw r)
          else Raise (RuntimeError (PBytes (content r)))
      end
  end.

(** *** Decimal digits, least significant first *)

Definition push (k : N) (d : uint) : uint :=
  match k with
  | 0 => D0 d | 1 => D1 d | 2 => D2 d | 3 => D3 d | 4 => D4 d
  | 5 => D5 d | 6 => D6 d | 7 => D7 d | 8 => D8 d | _ => D9 d
  end%N.

(** The digits of a number, none for zero. *)
Definition lu (n : N) : uint :=
  match n with
  | N0 => Nil
  | Npos p => Pos.to_little_uint p
  end.

End Calls.

(** ** Helper lemmas *)

Section Helpers.
Import Py Http.

Lemma string_app_nil (s : string) : s ++ EmptyString = s.
Proof. induction s as [|c s IH]; simpl; congruence. Qed.

Lemma string_app_assoc (a b c : string) : (a ++ b) ++ c = a ++ (b ++ c).
Proof. induction a as [|x a IH]; simpl; congruence. Qed.

(** A formatted string that is known feeds the continuation directly. *)
Lemma bind_lift_return {A B} (a : A) (f : A -> M B) :
  (x <- lift (Return a) ;; f x) = f a.
Proof. reflexivity. Qed.

Lemma bind_ret {A B} (a : A) (f : A -> M B) :
  (x <- ret a ;; f x) = f a.
Proof. reflexivity. Qed.

Lemma format_url (uri : string) :
  format "{}/{}" [VStr YHandler.YAHOO_ENDPOINT; VStr uri]
  = Return (Spec.api_url uri).
Proof. cbn. now rewrite string_app_nil. Qed.

(** [get] in one piece: the call it makes and what it does with the answer. *)
Lemma get_unfold (dumps : jvalue -> string) (sc : session) (uri : string)
    (h : list request) :
  YHandler.get dumps sc uri h =
  (match sc h (Spec.get_call uri) with
   | Return r =>
       match json r with
       | Return j =>
           match contains "error" j with
           | Return true => Raise (RuntimeError (PStr (dumps j)))
           | Return false => Return j
           | Raise e => Raise e
           end
       | Raise e => Raise e
       end
   | Raise e => Raise e
   end, (h ++ [Spec.get_call uri])%list).
Proof.
  unfold YHandler.get. rewrite format_url, bind_lift_return.
  unfold bind, send, lift, Spec.get_call.
  destruct (sc h _) as [r|e]; [|reflexivity].
  destruct (json r) as [j|e]; [|reflexivity].
  destruct (contains "error" j) as [[|]|e]; reflexivity.
Qed.

Lemma put_unfold (sc : session) (uri data : string) (h : list request) :
  YHandler.put sc uri data h =
  (match sc h (Spec.put_call uri data) with
   | Return r => if status_code r =? 200 then Return r
                 else Raise (RuntimeError (PBytes (content r)))
   | Raise e => Raise e
   end, (h ++ [Spec.put_call uri data])%list).
Proof.
  unfold YHandler.put. cbv zeta. rewrite format_url, bind_lift_return.
  unfold bind, send, Spec.put_call.
  destruct (sc h _) as [r|e]; [|reflexivity].
  destruct (status_code r =? 200); reflexivity.
Qed.

Lemma post_unfold (sc : session) (uri data : string) (h : list request) :
  YHandler.post sc uri data h =
  (match sc h (Spec.post_call uri data) with
   | Return r => if status_code r =? 201 then Return r
                 else Raise (RuntimeError (PBytes (content r)))
   | Raise e => Raise e
   end, (h ++ [Spec.post_call uri data])%list).
Proof.
  unfold YHandler.post. cbv zeta. rewrite format_url, bind_lift_return.
  unfold bind, send, Spec.post_call.
  destruct (sc h _) as [r|e]; [|reflexivity].
  destruct (status_code r =? 201); reflexivity.
Qed.

(** Key membership, as the [in] test computes it and as a proposition. *)
Lemma dict_contains_key (k : string) (items : list (string * jvalue)) :
  existsb (fun kv => String.eqb (fst kv) k) items = true
  <-> Spec.has_key k items.
Proof.
  unfold Spec.has_key. rewrite existsb_exists, in_map_iff. split.
  - intros [kv [Hin Heq]]. apply String.eqb_eq in Heq. now exists kv.
  - intros [kv [Heq Hin]]. exists kv. split; [assumption|].
    now apply String.eqb_eq.
Qed.

End Helpers.

(** ** The decimal numeral of an int *)

Section Numerals.
Import Py.

Lemma below_ten (k : N) :
  (k < 10)%N ->
  k = 0%N \/ k = 1%N \/ k = 2%N \/ k = 3%N \/ k = 4%N \/ k = 5%N
  \/ k = 6%N \/ k = 7%N \/ k = 8%N \/ k = 9%N.
Proof. lia. Qed.

Ltac each_digit H :=
  apply below_ten in H;
  repeat (destruct H as [H|H]; [subst; try reflexivity|]);
  subst; try reflexivity.

Lemma push_value (k : N) (d : uint) :
  (k < 10)%N ->
  Unsigned.of_lu (Calls.push k d) = (k + 10 * Unsigned.of_lu d)%N.
Proof. intros H. each_digit H. Qed.

Lemma push_nztail (k : N) (d : uint) :
  (k < 10)%N -> nztail d = d -> (k = 0%N -> d <> Nil) ->
  nztail (Calls.push k d) = Calls.push k d.
Proof.
  intros H Hd Hk. apply below_ten in H.
  destruct H as [H|H].
  - subst. simpl. rewrite Hd. destruct d; [now destruct Hk|reflexivity..].
  - repeat (destruct H as [H|H]; [subst; simpl; now rewrite Hd|]).
    subst. simpl. now rewrite Hd.
Qed.

Lemma push_revapp (k : N) (d acc : uint) :
  revapp (Calls.push k d) acc = revapp d (Calls.push k acc).
Proof.
  unfold Calls.push.
  destruct k as [|p]; [reflexivity|].
  repeat (destruct p as [p|p|]; try reflexivity).
Qed.

Lemma push_string (k : N) (d : uint) :
  (k < 10)%N ->
  NilEmpty.string_of_uint (Calls.push k d)
  = String (Spec.digit (Z.of_N k)) (NilEmpty.string_of_uint d).
Proof. intros H. each_digit H. Qed.

Lemma push_nonnil (k : N) (d : uint) : Calls.push k d <> Nil.
Proof.
  unfold Calls.push. destruct k as [|p]; [discriminate|].
  repeat (destruct p as [p|p|]; try discriminate).
Qed.

(** The digits that the library computes have the value of the number. *)
Lemma lu_value (n : N) : Unsigned.of_lu (Calls.lu n) = n.
Proof.
  destruct n as [|p]; [reflexivity|]. simpl.
  rewrite <- (Unsigned.of_to p). unfold Pos.to_uint.
  now rewrite Unsigned.of_lu_rev.
Qed.

Lemma lu_nztail (n : N) : nztail (Calls.lu n) = Calls.lu n.
Proof.
  destruct n as [|p]; [reflexivity|].
  pose proof (Unsigned.to_of_lu (Calls.lu (Npos p))) as H.
  rewrite lu_value in H. simpl in H. unfold lnorm in H.
  simpl. destruct (nztail (Pos.to_little_uint p)) eqn:E;
    try (now rewrite H).
  exfalso. pose proof (lu_value (Npos p)) as V. simpl in V.
  rewrite H in V. discriminate V.
Qed.

Lemma lu_nonnil (n : N) : (0 < n)%N -> Calls.lu n <> Nil.
Proof.
  intros Hn E. pose proof (lu_value n) as V. rewrite E in V. simpl in V. lia.
Qed.

(** They are the last digit of the number put before the digits of its
    tenth. *)
Lemma lu_step (n : N) :
  (0 < n)%N -> Calls.lu n = Calls.push (n mod 10) (Calls.lu (n / 10)).
Proof.
  intros Hn.
  assert (Hk : (n mod 10 < 10)%N) by (apply N.mod_lt; lia).
  set (d := Calls.push (n mod 10) (Calls.lu (n / 10))).
  assert (Hv : Unsigned.of_lu d = n).
  { unfold d. rewrite push_value, lu_value by assumption.
    pose proof (N.div_mod n 10 ltac:(lia)). lia. }
  assert (Hz : nztail d = d).
  { unfold d. apply push_nztail; [assumption | apply lu_nztail |].
    intros H0. apply lu_nonnil.
    pose proof (N.div_mod n 10 ltac:(lia)). lia. }
  pose proof (Unsigned.to_of_lu d) as H. rewrite Hv in H.
  unfold lnorm in H. rewrite Hz in H.
  destruct n as [|p]; [lia|]. simpl in H. simpl Calls.lu at 1.
  rewrite H. destruct d eqn:E; try reflexivity.
  exfalso. exact (push_nonnil _ _ E).
Qed.

Lemma numeral_of_lu (fuel : nat) :
  forall (n : Z) (acc : uint),
    0 <= n < 2 ^ Z.of_nat fuel ->
    NilEmpty.string_of_uint (revapp (Calls.lu (Z.to_N n)) acc)
    = Spec.numeral fuel n (NilEmpty.string_of_uint acc).
Proof.
  induction fuel as [|fuel IH]; intros n acc Hn.
  - simpl in Hn. assert (n = 0) as -> by lia. reflexivity.
  - cbn [Spec.numeral]. destruct (Z.leb_spec n 0) as [Hle|Hpos].
    + assert (n = 0) as -> by lia. reflexivity.
    + rewrite lu_step by lia. rewrite push_revapp.
      assert (Hdiv : (Z.to_N n / 10)%N = Z.to_N (n / 10))
        by (rewrite Z2N.inj_div by lia; reflexivity).
      assert (Hmod : Z.of_N (Z.to_N n mod 10) = n mod 10).
      { rewrite N2Z.inj_mod, Z2N.id by lia. reflexivity. }
      rewrite Hdiv, IH.
      * rewrite push_string by (apply N.mod_lt; lia).
        unfold Spec.digit at 1. rewrite Hmod.
        rewrite Z.mod_mod by lia. reflexivity.
      * rewrite Nat2Z.inj_succ, Z.pow_succ_r in Hn by lia.
        split; [apply Z.div_pos; lia|].
        apply Z.div_lt_upper_bound; lia.
Qed.

Lemma enough_is_enough (z : Z) :
  0 < z -> 0 <= z < 2 ^ Z.of_nat (Spec.enough z).
Proof.
  intros Hz. unfold Spec.enough.
  rewrite Nat2Z.inj_succ, Z2Nat.id by apply Z.log2_nonneg.
  pose proof (Z.log2_spec z Hz). lia.
Qed.

Lemma decimal_pos (p : positive) :
  NilZero.string_of_uint (Pos.to_uint p)
  = Spec.numeral (Spec.enough (Zpos p)) (Zpos p) EmptyString.
Proof.
  pose proof (numeral_of_lu (Spec.enough (Zpos p)) (Zpos p) Nil
                (enough_is_enough (Zpos p) ltac:(lia))) as H.
  simpl Z.to_N in H. simpl Calls.lu in H.
  change (revapp (Pos.to_little_uint p) Nil) with (Pos.to_uint p) in H.
  simpl (NilEmpty.string_of_uint Nil) in H. rewrite <- H.
  unfold NilZero.string_of_uint.
  destruct (Pos.to_uint p) eqn:E; try reflexivity.
  exfalso. exact (Unsigned.to_uint_nonnil p E).
Qed.

(** The numeral that Python writes is the one read off the number. *)
Lemma decimal_spec (z : Z) : decimal z = Spec.decimal z.
Proof.
  unfold decimal, Spec.decimal. destruct z as [|p|p].
  - reflexivity.
  - simpl Z.to_int. simpl NilZero.string_of_int.
    change (Z.pos p =? 0) with false. change (Z.pos p <? 0) with false.
    cbv iota. apply decimal_pos.
  - simpl Z.to_int. simpl NilZero.string_of_int.
    change (Z.neg p =? 0) with false. change (Z.neg p <? 0) with true.
    cbv iota. f_equal. apply decimal_pos.
Qed.

Lemma digits_spec (z : Z) : digits z = Spec.digit_count z.
Proof. unfold digits, Spec.digit_count. now rewrite decimal_spec. Qed.

End Numerals.

(** ** Which ints are written out *)

Section Rendering.
Import Py.

Lemma numeral_grows (fuel : nat) :
  forall (n : Z) (acc : string),
    (length acc <= length (Spec.numeral fuel n acc))%nat.
Proof.
  induction fuel as [|fuel IH]; intros n acc; cbn [Spec.numeral]; [lia|].
  destruct (n <=? 0); [lia|].
  specialize (IH (n / 10) (String (Spec.digit n) acc)). simpl in IH. lia.
Qed.

(** A positive number has at most [k] digits exactly when it is below
    [10 ^ k]. *)
Lemma numeral_length (fuel : nat) :
  forall (n : Z) (acc : string) (k : nat),
    0 <= n < 2 ^ Z.of_nat fuel ->
    ((length (Spec.numeral fuel n acc) <= length acc + k)%nat
     <-> n < 10 ^ Z.of_nat k).
Proof.
  induction fuel as [|fuel IH]; intros n acc k Hn.
  - simpl in Hn. assert (n = 0) as -> by lia. cbn [Spec.numeral].
    pose proof (Z.pow_pos_nonneg 10 (Z.of_nat k) ltac:(lia) ltac:(lia)).
    split; intros; lia.
  - cbn [Spec.numeral]. destruct (Z.leb_spec n 0) as [Hle|Hpos].
    + assert (n = 0) as -> by lia.
      pose proof (Z.pow_pos_nonneg 10 (Z.of_nat k) ltac:(lia) ltac:(lia)).
      split; intros; lia.
    + assert (Hn' : 0 <= n / 10 < 2 ^ Z.of_nat fuel).
      { rewrite Nat2Z.inj_succ, Z.pow_succ_r in Hn by lia.
        split; [apply Z.div_pos; lia|].
        apply Z.div_lt_upper_bound; lia. }
      destruct k as [|k].
      * pose proof (numeral_grows fuel (n / 10)
                      (String (Spec.digit n) acc)) as Hg.
        simpl in Hg. simpl (10 ^ Z.of_nat 0). split; intros; lia.
      * specialize (IH (n / 10) (String (Spec.digit n) acc) k Hn').
        simpl length in IH.
        rewrite Nat2Z.inj_succ, Z.pow_succ_r by lia.
        set (B := 10 ^ Z.of_nat k) in *.
        assert (HB : n / 10 < B <-> n < 10 * B)
          by (Z.div_mod_to_equations; lia).
        rewrite <- HB, <- IH. split; intros; lia.
Qed.

Lemma digit_count_bound (z : Z) (k : nat) :
  (0 < k)%nat ->
  ((Spec.digit_count z <= k)%nat <-> Z.abs z < 10 ^ Z.of_nat k).
Proof.
  intros Hk. unfold Spec.digit_count, Spec.decimal.
  pose proof (Z.abs_nonneg z) as Ha.
  destruct (Z.eqb_spec (Z.abs z) 0) as [E|N].
  - rewrite E. simpl length.
    pose proof (Z.pow_pos_nonneg 10 (Z.of_nat k) ltac:(lia) ltac:(lia)).
    split; intros; lia.
  - destruct (Z.ltb_spec (Z.abs z) 0) as [Hneg|_]; [lia|].
    apply (numeral_length (Spec.enough (Z.abs z)) (Z.abs z) EmptyString k).
    apply enough_is_enough. lia.
Qed.

(** Python writes an int out exactly when it is below [10 ^ 4300] in
    absolute value. *)
Lemma renders_int_iff (z : Z) :
  Spec.renders_int z = true <-> Z.abs z < 10 ^ 4300.
Proof.
  unfold Spec.renders_int. rewrite Nat.leb_le.
  rewrite (digit_count_bound z 4300) by (apply Nat.lt_0_succ).
  replace (Z.of_nat 4300) with 4300 by reflexivity. reflexivity.
Qed.

Lemma str_int (z : Z) :
  Spec.renders_int z = true -> str (VInt z) = Return (Spec.decimal z).
Proof.
  unfold Spec.renders_int, str. intros H.
  rewrite digits_spec, decimal_spec, Nat.ltb_antisym.
  unfold int_max_str_digits. now rewrite H.
Qed.

Lemma str_oversized (z : Z) :
  Spec.renders_int z = false -> str (VInt z) = Raise ValueError.
Proof.
  unfold Spec.renders_int, str. intros H.
  rewrite digits_spec, Nat.ltb_antisym.
  unfold int_max_str_digits. now rewrite H.
Qed.

(** An int of 4301 digits. *)
Lemma ten_to_4300_oversized : Spec.renders_int (10 ^ 4300) = false.
Proof.
  destruct (Spec.renders_int (10 ^ 4300)) eqn:E; [|reflexivity].
  apply renders_int_iff in E.
  set (B := 10 ^ 4300) in *.
  assert (0 < B) by (apply Z.pow_pos_nonneg; lia). lia.
Qed.

Lemma comprehension_str (pref : string) (ids : list pyval) :
  forallb Spec.renders ids = true ->
  comprehension (fun i => match str i with
                          | Return t => Return (pref ++ ".p." ++ t)
                          | Raise e => Raise e
                          end) ids
  = Return (map (fun i => pref ++ ".p." ++ Spec.text i) ids).
Proof.
  induction ids as [|i ids IH]; [reflexivity|].
  cbn [forallb]. intros H. apply andb_prop in H. destruct H as [Hi Hr].
  cbn [comprehension map]. rewrite (IH Hr).
  destruct i as [s|z]; [reflexivity|].
  cbn [Spec.renders] in Hi. now rewrite (str_int z Hi).
Qed.

Lemma comprehension_oversized (pref : string) (ids : list pyval) :
  forallb Spec.renders ids = false ->
  comprehension (fun i => match str i with
                          | Return t => Return (pref ++ ".p." ++ t)
                          | Raise e => Raise e
                          end) ids
  = Raise ValueError.
Proof.
  induction ids as [|i ids IH]; [discriminate|].
  cbn [forallb comprehension]. intros H.
  destruct i as [s|z].
  - cbn [Spec.renders andb] in H. cbn [str]. now rewrite (IH H).
  - cbn [Spec.renders] in H.
    destruct (Spec.renders_int z) eqn:Hz.
    + rewrite (str_int z Hz). cbn [andb] in H. now rewrite (IH H).
    + now rewrite (str_oversized z Hz).
Qed.

End Rendering.
(** ** The transport contract *)

Section Transport.
Import Py Http.

(** C6. Every [get] makes exactly one call on the session: a GET whose URL
    is the fixed HTTPS endpoint of the Yahoo Fantasy Sports v2 API, a slash
    and the path it was given, with the query parameter [format=json]. *)
Theorem get_targets_fixed_endpoint (dumps : jvalue -> string) (sc : session)
    (uri : string) (h : list request) :
  snd (YHandler.get dumps sc uri h)
    = (h ++ [Request GET
               ("https://fantasysports.yahooapis.com/fantasy/v2/" ++ uri)
               [("format", "json")] None []])%list
  /\ Spec.api_url uri = YHandler.YAHOO_ENDPOINT ++ "/" ++ uri
  /\ prefix "https://" YHandler.YAHOO_ENDPOINT = true.
Proof.
  rewrite get_unfold. repeat split.
Qed.

(** C8. [put] and [post] each make exactly one call on the session, with
    the header [Content-Type: application/xml] and the caller's payload as
    the body, unchanged. *)
Theorem put_post_send_xml_payload (sc : session) (uri data : string)
    (h : list request) :
  snd (YHandler.put sc uri data h)
    = (h ++ [Request PUT (Spec.api_url uri) [] (Some data)
               [("Content-Type", "application/xml")]])%list
  /\ snd (YHandler.post sc uri data h)
    = (h ++ [Request POST (Spec.api_url uri) [] (Some data)
               [("Content-Type", "application/xml")]])%list.
Proof.
  rewrite put_unfold, post_unfold. split; reflexivity.
Qed.

(** C2. When the session answers a [put] with a response, [put] returns
    that response object as it is if and only if its status code is 200,
    and otherwise raises [RuntimeError] carrying [response.content]; the
    same holds for [post] with 201. *)
Theorem put_post_succeed_on_exact_status (sc : session) (uri data : string)
    (h : list request) (r : response) :
  (sc h (Spec.put_call uri data) = Return r ->
     ((exists v, fst (YHandler.put sc uri data h) = Return v)
        <-> status_code r = 200)
     /\ (status_code r = 200 ->
         fst (YHandler.put sc uri data h) = Return r)
     /\ (status_code r <> 200 ->
         fst (YHandler.put sc uri data h)
           = Raise (RuntimeError (PBytes (content r)))))
  /\ (sc h (Spec.post_call uri data) = Return r ->
     ((exists v, fst (YHandler.post sc uri data h) = Return v)
        <-> status_code r = 201)
     /\ (status_code r = 201 ->
         fst (YHandler.post sc uri data h) = Return r)
     /\ (status_code r <> 201 ->
         fst (YHandler.post sc uri data h)
           = Raise (RuntimeError (PBytes (content r))))).
Proof.
  rewrite put_unfold, post_unfold. cbn [fst].
  split; intros ->.
  - destruct (Z.eqb_spec (status_code r) 200) as [E|N].
    + split; [split; [auto | eauto] | split; [auto | contradiction]].
    + split; [split; [intros [v Hv]; discriminate Hv | contradiction]
             | split; [contradiction | auto]].
  - destruct (Z.eqb_spec (status_code r) 201) as [E|N].
    + split; [split; [auto | eauto] | split; [auto | contradiction]].
    + split; [split; [intros [v Hv]; discriminate Hv | contradiction]
             | split; [contradiction | auto]].
Qed.

(** A PUT answered with 201 fails although the body is there; a POST
    answered with 201 returns the response, which is never parsed. *)
Lemma put_post_succeed_on_exact_status_witness :
  fst (YHandler.put (Demo.always (Demo.xml_response 201)) "team/T1/roster"
         "<fantasy_content/>" [])
    = Raise (RuntimeError (PBytes Demo.xml_bytes))
  /\ fst (YHandler.post (Demo.always (Demo.xml_response 201))
            "league/L1/transactions" "<fantasy_content/>" [])
    = Return (Demo.xml_response 201).
Proof.
  split.
  - apply (proj1 (put_post_succeed_on_exact_status
                    (Demo.always (Demo.xml_response 201)) "team/T1/roster"
                    "<fantasy_content/>" [] (Demo.xml_response 201))
             eq_refl).
    simpl. discriminate.
  - apply (proj2 (put_post_succeed_on_exact_status
                    (Demo.always (Demo.xml_response 201))
                    "league/L1/transactions" "<fantasy_content/>" []
                    (Demo.xml_response 201))
             eq_refl).
    reflexivity.
Defined.

(** C1, for a body that is a JSON object.  When the session answers a
    [get] with a response whose body parses to a JSON object, [get] raises [RuntimeError] if and only if the object
    has the key "error", the error then carries [json.dumps] of the object,
    and without the key the object itself is returned.  The status code of
    the response plays no part. *)
Theorem get_raises_iff_error_key (dumps : jvalue -> string) (sc : session)
    (uri : string) (h : list request) (r : response)
    (items : list (string * jvalue))
    (Hcall : sc h (Spec.get_call uri) = Return r)
    (Hjson : json r = Return (JDict items)) :
  ((exists p, fst (YHandler.get dumps sc uri h) = Raise (RuntimeError p))
     <-> Spec.has_key "error" items)
  /\ (Spec.has_key "error" items ->
      fst (YHandler.get dumps sc uri h)
        = Raise (RuntimeError (PStr (dumps (JDict items)))))
  /\ (~ Spec.has_key "error" items ->
      fst (YHandler.get dumps sc uri h) = Return (JDict items)).
Proof.
  rewrite get_unfold, Hcall, Hjson. cbn [fst contains].
  pose proof (dict_contains_key "error" items) as Hk.
  destruct (existsb _ items).
  - assert (Spec.has_key "error" items) as Hin by (now apply Hk).
    repeat split; intros; try assumption; try contradiction.
    now exists (PStr (dumps (JDict items))).
  - assert (~ Spec.has_key "error" items) as Hnot.
    { intros Hin. apply Hk in Hin. discriminate. }
    repeat split; intros; try contradiction.
    destruct H as [p Hp]. discriminate.
Qed.

(** An error object comes back as a [RuntimeError] even under status 200,
    and an object without the key comes back unchanged even under 500. *)
Lemma get_raises_iff_error_key_witness :
  fst (YHandler.get Demo.dumps
         (Demo.always (Demo.json_response 200 Demo.error_body))
         "league/L1/standings" [])
    = Raise (RuntimeError (PStr (Demo.dumps Demo.error_body)))
  /\ fst (YHandler.get Demo.dumps
            (Demo.always (Demo.json_response 500 Demo.ok_body))
            "league/L1/standings" [])
    = Return Demo.ok_body.
Proof.
  split.
  - apply (get_raises_iff_error_key Demo.dumps
             (Demo.always (Demo.json_response 200 Demo.error_body))
             "league/L1/standings" []
             (Demo.json_response 200 Demo.error_body) _ eq_refl eq_refl).
    left. reflexivity.
  - apply (get_raises_iff_error_key Demo.dumps
             (Demo.always (Demo.json_response 500 Demo.ok_body))
             "league/L1/standings" []
             (Demo.json_response 500 Demo.ok_body) _ eq_refl eq_refl).
    unfold Spec.has_key. simpl. intros [H|[]]. discriminate.
Defined.

(** C1 as stated, for every parsed body, fails on a body that is no
    object.  A JSON string in which "error" occurs has no key at all and
    yet [get] raises [RuntimeError]; a JSON array that holds the string
    "error" likewise; and the body [null] has no key "error" and yet is not
    returned: the [in] test raises [TypeError]. *)
Lemma get_error_key_counterexample :
  (~ In "error" (Spec.keys (JStr "an error page"))
   /\ fst (YHandler.get Demo.dumps
             (Demo.always (Demo.json_response 200 (JStr "an error page")))
             "league/L1/standings" [])
      = Raise (RuntimeError (PStr (Demo.dumps (JStr "an error page")))))
  /\ (~ In "error" (Spec.keys (JList [JStr "error"]))
      /\ fst (YHandler.get Demo.dumps
                (Demo.always (Demo.json_response 200 (JList [JStr "error"])))
                "league/L1/standings" [])
         = Raise (RuntimeError
                    (PStr (Demo.dumps (JList [JStr "error"])))))
  /\ (~ In "error" (Spec.keys JNull)
      /\ fst (YHandler.get Demo.dumps
                (Demo.always (Demo.json_response 200 JNull))
                "league/L1/standings" [])
         = Raise TypeError
      /\ fst (YHandler.get Demo.dumps
                (Demo.always (Demo.json_response 200 JNull))
                "league/L1/standings" [])
         <> Return JNull).
Proof.
  rewrite !get_unfold. cbn [fst].
  split; [|split]; (split; [intros H; exact H|]).
  - reflexivity.
  - reflexivity.
  - split; [reflexivity | intros H; discriminate H].
Qed.

End Transport.

(** ** Dates *)

Section Dates.
Import Py.

Lemma below_forallb (P : Z -> bool) (bound : Z) :
  forallb P (map Z.of_nat (seq 0 (Z.to_nat bound))) = true ->
  forall n, 0 <= n < bound -> P n = true.
Proof.
  intros Hall n Hn. rewrite forallb_forall in Hall. apply Hall.
  apply in_map_iff. exists (Z.to_nat n). split; [lia|].
  apply in_seq. lia.
Qed.

(** From the year 1000 on the numeral of a year has its four digits. *)
Lemma decimal_year (y : Z) :
  1000 <= y <= 9999 -> decimal y = Spec.four_digits y.
Proof.
  intros Hy. rewrite decimal_spec. unfold Spec.decimal.
  destruct (Z.eqb_spec y 0) as [E|_]; [lia|].
  destruct (Z.ltb_spec y 0) as [E|_]; [lia|].
  unfold Spec.enough.
  assert (Hlog : 9 <= Z.log2 y).
  { change 9 with (Z.log2 512). apply Z.log2_le_mono. lia. }
  remember (Z.to_nat (Z.log2 y)) as fuel eqn:Hfuel.
  assert (Hf : (4 <= fuel)%nat) by lia.
  do 4 (destruct fuel as [|fuel]; [lia|]).
  assert (H1 : (y <=? 0) = false) by (apply Z.leb_gt; lia).
  assert (H2 : (y / 10 <=? 0) = false)
    by (apply Z.leb_gt; Z.div_mod_to_equations; lia).
  assert (H3 : (y / 10 / 10 <=? 0) = false)
    by (apply Z.leb_gt; Z.div_mod_to_equations; lia).
  assert (H4 : (y / 10 / 10 / 10 <=? 0) = false)
    by (apply Z.leb_gt; Z.div_mod_to_equations; lia).
  assert (H5 : (y / 10 / 10 / 10 / 10 <=? 0) = true)
    by (apply Z.leb_le; Z.div_mod_to_equations; lia).
  cbn [Spec.numeral]. rewrite H1, H2, H3, H4, H5.
  unfold Spec.four_digits.
  rewrite !Z.div_div by lia. reflexivity.
Qed.

Lemma zfill_two (n : Z) :
  0 <= n <= 99 -> zfill 2 (decimal n) = Spec.two_digits n.
Proof.
  intros Hn. apply String.eqb_eq.
  apply (below_forallb
           (fun k => String.eqb (zfill 2 (decimal k)) (Spec.two_digits k))
           100); [vm_compute; reflexivity | lia].
Qed.

Lemma digit_is_no_dash (n : Z) : Spec.digit n <> "-"%char.
Proof.
  unfold Spec.digit. intros H.
  pose proof (Z.mod_pos_bound n 10 ltac:(lia)) as Hn.
  apply (f_equal N_of_ascii) in H.
  rewrite N_ascii_embedding in H by lia.
  change (N_of_ascii "-") with 45%N in H. lia.
Qed.

Lemma numeral_no_dash (fuel : nat) :
  forall (n : Z) (acc : string),
    ~ In "-"%char (list_ascii_of_string acc) ->
    ~ In "-"%char (list_ascii_of_string (Spec.numeral fuel n acc)).
Proof.
  induction fuel as [|fuel IH]; intros n acc Hacc; cbn [Spec.numeral];
    [assumption|].
  destruct (n <=? 0); [assumption|].
  apply IH. simpl. intros [H|H]; [|now apply Hacc].
  exact (digit_is_no_dash n H).
Qed.

(** The numeral of a year has no dash in it. *)
Lemma decimal_year_no_dash (y : Z) :
  0 <= y <= 9999 ->
  ~ In "-"%char (list_ascii_of_string (decimal y)).
Proof.
  intros Hy. rewrite decimal_spec. unfold Spec.decimal.
  destruct (Z.eqb_spec y 0) as [E|_].
  - simpl. intros [H|[]]. discriminate H.
  - destruct (Z.ltb_spec y 0) as [E|_]; [lia|].
    apply numeral_no_dash. simpl. tauto.
Qed.

Lemma valid_bounds (d : date) :
  valid d = true ->
  1 <= year d <= 9999 /\ 1 <= month d <= 12 /\ 1 <= day d <= 31.
Proof.
  unfold valid, days_in_month. intros H.
  repeat (apply andb_prop in H; destruct H as [H ?]).
  repeat match goal with
         | H : (_ <=? _) = true |- _ => apply Z.leb_le in H
         end.
  repeat split; try assumption.
  destruct (month d =? 2); [destruct (is_leap (year d)); lia|].
  destruct ((month d =? 4) || (month d =? 6) || (month d =? 9)
            || (month d =? 11)); lia.
Qed.

(** [strftime("%Y-%m-%d")] of a valid date: the year as it is, the month
    and the day on two digits. *)
Lemma strftime_ymd (d : date) :
  valid d = true ->
  strftime "%Y-%m-%d" d
  = Return (decimal (year d) ++ "-" ++ Spec.two_digits (month d) ++ "-"
              ++ Spec.two_digits (day d)).
Proof.
  intros Hv. apply valid_bounds in Hv. destruct Hv as [Hy [Hm Hd]].
  cbn -[zfill decimal].
  rewrite !zfill_two by lia.
  reflexivity.
Qed.

(** From the year 1000 on that is the ISO form. *)
Lemma strftime_iso (d : date) :
  valid d = true -> 1000 <= year d ->
  strftime "%Y-%m-%d" d = Return (Spec.iso_date d).
Proof.
  intros Hv Hy. rewrite (strftime_ymd d Hv).
  apply valid_bounds in Hv. destruct Hv as [Hy' _].
  rewrite decimal_year by lia. reflexivity.
Qed.

End Dates.

(** ** Prefix of a league id *)

Section LeaguePrefix.
Import Py.

Lemma before_dot_length (s : string) :
  (length (Spec.before_dot s) <= length s)%nat.
Proof.
  induction s as [|c s IH]; simpl; [lia|].
  destruct (Ascii.eqb c "."); simpl; lia.
Qed.

(** One step of [index] when looking for a dot. *)
Lemma index_dot_step (c : ascii) (s : string) :
  index 0 "." (String c s)
  = if Ascii.eqb c "." then Some 0%nat
    else match index 0 "." s with
         | Some n => Some (S n)
         | None => None
         end.
Proof.
  cbn [index prefix].
  destruct (ascii_dec "." c) as [E|N]; destruct (Ascii.eqb_spec c ".");
    try congruence.
  now destruct s.
Qed.

Lemma index_dot (s : string) :
  Spec.has_dot s = true ->
  index 0 "." s = Some (length (Spec.before_dot s)).
Proof.
  induction s as [|c s IH]; [discriminate|].
  rewrite index_dot_step. cbn [Spec.has_dot Spec.before_dot].
  destruct (Ascii.eqb c "."); [reflexivity|].
  cbn [orb length]. intros Hd. now rewrite (IH Hd).
Qed.

Lemma index_no_dot (s : string) :
  Spec.has_dot s = false -> index 0 "." s = None.
Proof.
  induction s as [|c s IH]; [reflexivity|].
  rewrite index_dot_step. cbn [Spec.has_dot].
  destruct (Ascii.eqb c "."); [discriminate|].
  cbn [orb]. intros Hd. now rewrite (IH Hd).
Qed.

Lemma substring_before_dot (s : string) :
  substring 0 (length (Spec.before_dot s)) s = Spec.before_dot s.
Proof.
  induction s as [|c s IH]; simpl; [reflexivity|].
  destruct (Ascii.eqb c "."); simpl; [reflexivity|]. now rewrite IH.
Qed.

(** With a dot in the id, the slice up to [find] is what precedes it. *)
Lemma slice_find_dot (s : string) :
  Spec.has_dot s = true -> slice s 0 (find s ".") = Spec.before_dot s.
Proof.
  intros Hd. unfold find. rewrite (index_dot s Hd).
  pose proof (before_dot_length s) as Hlen.
  unfold slice, slice_bound.
  replace (0 <? 0) with false by reflexivity.
  destruct (Z.ltb_spec (Z.of_nat (length (Spec.before_dot s))) 0); [lia|].
  rewrite (Z.min_r _ 0) by lia. rewrite Z.max_id.
  rewrite Z.min_r by lia. rewrite Z.max_r by lia.
  rewrite Z.sub_0_r, Nat2Z.id. simpl (Z.to_nat 0).
  apply substring_before_dot.
Qed.

(** Without one, [find] is [-1] and the slice drops the last character. *)
Lemma slice_find_no_dot (s : string) :
  Spec.has_dot s = false ->
  slice s 0 (find s ".") = substring 0 (length s - 1) s.
Proof.
  intros Hd. unfold find. rewrite (index_no_dot s Hd).
  unfold slice, slice_bound.
  replace (0 <? 0) with false by reflexivity.
  replace (-1 <? 0) with true by reflexivity.
  rewrite (Z.min_r _ 0) by lia. rewrite Z.max_id.
  rewrite Z.sub_0_r. simpl (Z.to_nat 0). f_equal. lia.
Qed.

Lemma before_dot_splits (s : string) :
  Spec.has_dot s = true ->
  exists rest, s = Spec.before_dot s ++ "." ++ rest.
Proof.
  induction s as [|c s IH]; simpl; [discriminate|].
  destruct (Ascii.eqb_spec c ".") as [->|Hne]; simpl.
  - intros _. now exists s.
  - intros Hd. destruct (IH Hd) as [rest Hrest]. exists rest.
    f_equal. exact Hrest.
Qed.

Lemma before_dot_has_no_dot (s : string) :
  Spec.has_dot (Spec.before_dot s) = false.
Proof.
  induction s as [|c s IH]; simpl; [reflexivity|].
  destruct (Ascii.eqb c ".") eqn:E; simpl; [reflexivity|].
  now rewrite E.
Qed.

End LeaguePrefix.

(** ** Formatting a template *)

Section Formatting.
Import Py Http.

(** A computation that raises before it calls the session. *)
Lemma bind_lift_raise {A B} (e : exn) (f : A -> M B) :
  (x <- lift (Raise e) ;; f x) = raise e.
Proof. reflexivity. Qed.

Lemma bind_raise {A B} (e : exn) (f : A -> M B) :
  (x <- raise e ;; f x) = raise e.
Proof. reflexivity. Qed.

Lemma prefix_app (a b : string) : prefix a (a ++ b) = true.
Proof.
  apply prefix_correct. induction a as [|c a IH]; simpl.
  - now destruct b.
  - now rewrite IH.
Qed.

Lemma api_url_under_endpoint (path : string) :
  Calls.under_endpoint (Spec.api_url path) = true.
Proof.
  unfold Calls.under_endpoint, Spec.api_url.
  rewrite <- string_app_assoc. apply prefix_app.
Qed.

End Formatting.

(** Evaluates the formatting of a literal template; the ints are written
    out under the assumptions at hand. *)
Ltac format_step :=
  cbn [Py.format Py.strftime Ascii.eqb Bool.eqb];
  rewrite ?str_int by assumption;
  rewrite ?str_oversized by assumption;
  cbn [Py.str];
  rewrite ?bind_lift_return, ?bind_ret, ?bind_lift_raise, ?bind_raise.

Ltac format_path :=
  do 3 format_step;
  rewrite ?string_app_nil; repeat rewrite string_app_assoc; reflexivity.

(** ** The paths *)

Section Paths.
Import Py Http.

Variable dumps : jvalue -> string.
Variable sc : session.

Lemma roster_with_week (team_key : string) (w : Z) (day : option date) :
  Spec.renders_int w = true ->
  YHandler.get_roster_raw dumps sc team_key (Some w) day
  = YHandler.get dumps sc
      ("team/" ++ team_key ++ "/roster;week=" ++ Spec.decimal w).
Proof. intros Hw. unfold YHandler.get_roster_raw. format_path. Qed.

Lemma roster_week_oversized (team_key : string) (w : Z)
    (day : option date) :
  Spec.renders_int w = false ->
  YHandler.get_roster_raw dumps sc team_key (Some w) day
  = raise ValueError.
Proof. intros Hw. unfold YHandler.get_roster_raw. format_path. Qed.

Lemma roster_with_day_ymd (team_key : string) (d : date) :
  valid d = true ->
  YHandler.get_roster_raw dumps sc team_key None (Some d)
  = YHandler.get dumps sc
      ("team/" ++ team_key ++ "/roster;date=" ++ decimal (year d) ++ "-"
         ++ Spec.two_digits (month d) ++ "-" ++ Spec.two_digits (day d)).
Proof.
  intros Hv. unfold YHandler.get_roster_raw.
  rewrite (strftime_ymd d Hv), bind_lift_return. format_path.
Qed.

Lemma roster_with_day (team_key : string) (d : date) :
  valid d = true -> 1000 <= year d ->
  YHandler.get_roster_raw dumps sc team_key None (Some d)
  = YHandler.get dumps sc
      ("team/" ++ team_key ++ "/roster;date=" ++ Spec.iso_date d).
Proof.
  intros Hv Hy. unfold YHandler.get_roster_raw.
  rewrite (strftime_iso d Hv Hy), bind_lift_return. format_path.
Qed.

Lemma roster_plain (team_key : string) :
  YHandler.get_roster_raw dumps sc team_key None None
  = YHandler.get dumps sc ("team/" ++ team_key ++ "/roster").
Proof. unfold YHandler.get_roster_raw. format_path. Qed.

(** C4, for a week that Python can write out and a day from the year 1000
    on.  [get_roster_raw] asks for [team/{team_key}/roster;week={week}]
    when the week is set, the week being written as its decimal numeral;
    for [team/{team_key}/roster;date=YYYY-MM-DD] when only the day is set;
    and for [team/{team_key}/roster] when neither is. *)
Theorem get_roster_raw_builds_path (team_key : string) :
  (forall w day, Spec.renders_int w = true ->
     YHandler.get_roster_raw dumps sc team_key (Some w) day
     = YHandler.get dumps sc
         ("team/" ++ team_key ++ "/roster;week=" ++ Spec.decimal w))
  /\ (forall d, valid d = true -> 1000 <= year d ->
       YHandler.get_roster_raw dumps sc team_key None (Some d)
       = YHandler.get dumps sc
           ("team/" ++ team_key ++ "/roster;date=" ++ Spec.iso_date d))
  /\ YHandler.get_roster_raw dumps sc team_key None None
     = YHandler.get dumps sc ("team/" ++ team_key ++ "/roster").
Proof.
  split; [|split].
  - intros w day Hw. now apply roster_with_week.
  - intros d Hd Hy. now apply roster_with_day.
  - apply roster_plain.
Qed.

(** C9, for a week that Python can write out.  With both a week and a day,
    the week wins: the path is [team/{team_key}/roster;week={week}] with
    the week as its decimal numeral, the same as without the day; the day
    is not looked at. *)
Theorem get_roster_raw_week_wins (team_key : string) (w : Z) (d : date)
    (Hw : Spec.renders_int w = true) :
  YHandler.get_roster_raw dumps sc team_key (Some w) (Some d)
  = YHandler.get dumps sc
      ("team/" ++ team_key ++ "/roster;week=" ++ Spec.decimal w)
  /\ YHandler.get_roster_raw dumps sc team_key (Some w) (Some d)
     = YHandler.get_roster_raw dumps sc team_key (Some w) None.
Proof.
  split; [now apply roster_with_week|].
  now rewrite !roster_with_week.
Qed.

Lemma players_with_position (league_id : string) (start : Z)
    (status p : string) :
  Spec.renders_int start = true ->
  YHandler.get_players_raw dumps sc league_id start status (Some p)
  = YHandler.get dumps sc
      ("league/" ++ league_id ++ "/players;start=" ++ Spec.decimal start
         ++ ";count=25;status=" ++ status ++ ";position=" ++ p
         ++ "/percent_owned").
Proof. intros Hs. unfold YHandler.get_players_raw. format_path. Qed.

Lemma players_without_position (league_id : string) (start : Z)
    (status : string) :
  Spec.renders_int start = true ->
  YHandler.get_players_raw dumps sc league_id start status None
  = YHandler.get dumps sc
      ("league/" ++ league_id ++ "/players;start=" ++ Spec.decimal start
         ++ ";count=25;status=" ++ status ++ "/percent_owned").
Proof. intros Hs. unfold YHandler.get_players_raw. format_path. Qed.

Lemma players_oversized (league_id : string) (start : Z) (status : string)
    (position : option string) :
  Spec.renders_int start = false ->
  YHandler.get_players_raw dumps sc league_id start status position
  = raise ValueError.
Proof.
  intros Hs. unfold YHandler.get_players_raw.
  destruct position; format_path.
Qed.

(** C5, for a start offset that Python can write out.  [get_players_raw]
    asks for
    [league/{id}/players;start={n};count=25;status={s};position={p}/percent_owned]
    for a position [p], with the offset as its decimal numeral, and for the
    same path without the [;position={p}] segment when the position is
    [None]; the segment is missing exactly then, and [;count=25] is always
    there. *)
Theorem get_players_raw_builds_path (league_id : string) (start : Z)
    (status : string) (position : option string)
    (Hstart : Spec.renders_int start = true) :
  YHandler.get_players_raw dumps sc league_id start status position
  = YHandler.get dumps sc
      ("league/" ++ league_id ++ "/players;start=" ++ Spec.decimal start
         ++ ";count=25;status=" ++ status
         ++ Spec.position_segment position ++ "/percent_owned")
  /\ (Spec.position_segment position = EmptyString <-> position = None)
  /\ YHandler.get_players_raw dumps sc league_id start status None
     = YHandler.get dumps sc
         ("league/" ++ league_id ++ "/players;start=" ++ Spec.decimal start
            ++ ";count=25;status=" ++ status ++ "/percent_owned")
  /\ (forall p,
        YHandler.get_players_raw dumps sc league_id start status (Some p)
        = YHandler.get dumps sc
            ("league/" ++ league_id ++ "/players;start="
               ++ Spec.decimal start ++ ";count=25;status=" ++ status
               ++ ";position=" ++ p ++ "/percent_owned")).
Proof.
  split; [|split; [|split]].
  - destruct position as [p|]; cbn [Spec.position_segment].
    + rewrite players_with_position by assumption.
      now repeat rewrite string_app_assoc.
    + now rewrite players_without_position by assumption.
  - destruct position as [p|]; simpl; split; congruence.
  - now apply players_without_position.
  - intros p. now apply players_with_position.
Qed.

(** C10. [get_player_raw] asks for [league/{league_id}/] when the player
    name is [None], and for [league/{league_id}/players;search={name}/stats]
    otherwise. *)
Theorem get_player_raw_builds_path (league_id : string) :
  YHandler.get_player_raw dumps sc league_id None
  = YHandler.get dumps sc ("league/" ++ league_id ++ "/")
  /\ (forall player_name,
        YHandler.get_player_raw dumps sc league_id (Some player_name)
        = YHandler.get dumps sc
            ("league/" ++ league_id ++ "/players;search=" ++ player_name
               ++ "/stats")).
Proof.
  split; [|intros player_name]; unfold YHandler.get_player_raw; format_path.
Qed.

Lemma percent_owned_path (league_id : string) (player_ids : list pyval) :
  forallb Spec.renders player_ids = true ->
  YHandler.get_percent_owned_raw dumps sc league_id player_ids
  = YHandler.get dumps sc
      ("league/" ++ league_id ++ "/players;player_keys="
         ++ join ","
              (map (fun i => slice league_id 0 (find league_id ".")
                             ++ ".p." ++ Spec.text i) player_ids)
         ++ "/percent_owned").
Proof.
  intros Hr. unfold YHandler.get_percent_owned_raw. cbv zeta.
  rewrite (comprehension_str _ _ Hr), bind_lift_return. format_path.
Qed.

Lemma percent_owned_oversized (league_id : string)
    (player_ids : list pyval) :
  forallb Spec.renders player_ids = false ->
  YHandler.get_percent_owned_raw dumps sc league_id player_ids
  = raise ValueError.
Proof.
  intros Hr. unfold YHandler.get_percent_owned_raw. cbv zeta.
  now rewrite (comprehension_oversized _ _ Hr), bind_lift_raise.
Qed.

Lemma renders_names (names : list string) :
  forallb Spec.renders (map VStr names) = true.
Proof. induction names as [|n names IH]; [reflexivity | exact IH]. Qed.

(** C3, for a league id that has a dot.  The prefix is what comes before
    the first dot, each player key is [{prefix}.p.{id}], the keys are
    joined with commas, and the path asked for is
    [league/{league_id}/players;player_keys={joined}/percent_owned].  An id
    is a [str], taken as it is; an id given as an int is written as its
    decimal numeral, and one that Python cannot write out ends the call
    with its [ValueError]. *)
Theorem get_percent_owned_raw_builds_path (league_id : string)
    (Hdot : Spec.has_dot league_id = true) :
  (exists rest,
     league_id = Spec.before_dot league_id ++ "." ++ rest
     /\ Spec.has_dot (Spec.before_dot league_id) = false)
  /\ (forall names : list string,
        YHandler.get_percent_owned_raw dumps sc league_id (map VStr names)
        = YHandler.get dumps sc
            ("league/" ++ league_id ++ "/players;player_keys="
               ++ join ","
                    (map (fun name => Spec.before_dot league_id ++ ".p."
                                      ++ name) names)
               ++ "/percent_owned"))
  /\ (forall player_ids : list pyval,
        forallb Spec.renders player_ids = true ->
        YHandler.get_percent_owned_raw dumps sc league_id player_ids
        = YHandler.get dumps sc
            ("league/" ++ league_id ++ "/players;player_keys="
               ++ join ","
                    (map (fun i => Spec.before_dot league_id ++ ".p."
                                   ++ Spec.text i) player_ids)
               ++ "/percent_owned"))
  /\ (forall player_ids : list pyval,
        forallb Spec.renders player_ids = false ->
        YHandler.get_percent_owned_raw dumps sc league_id player_ids
        = raise ValueError).
Proof.
  split; [|split; [|split]].
  - destruct (before_dot_splits league_id Hdot) as [rest Hrest].
    exists rest. split; [assumption | apply before_dot_has_no_dot].
  - intros names.
    rewrite (percent_owned_path league_id _ (renders_names names)).
    rewrite (slice_find_dot league_id Hdot), map_map. reflexivity.
  - intros player_ids Hr.
    rewrite (percent_owned_path league_id _ Hr).
    now rewrite (slice_find_dot league_id Hdot).
  - intros player_ids Hr. now apply percent_owned_oversized.
Qed.

End Paths.

(** ** The paths on concrete arguments *)

Section PathExamples.
Import Py Http.

(** Week 3 of team T1, 7 April 2019, and no argument at all. *)
Lemma get_roster_raw_builds_path_witness :
  valid (Date 2019 4 7) = true
  /\ snd (YHandler.get_roster_raw Demo.dumps Demo.yahoo "T1" (Some 3) None [])
     = [Spec.get_call "team/T1/roster;week=3"]
  /\ snd (YHandler.get_roster_raw Demo.dumps Demo.yahoo "T1" None
            (Some (Date 2019 4 7)) [])
     = [Spec.get_call "team/T1/roster;date=2019-04-07"]
  /\ snd (YHandler.get_roster_raw Demo.dumps Demo.yahoo "T1" None None [])
     = [Spec.get_call "team/T1/roster"].
Proof.
  destruct (get_roster_raw_builds_path Demo.dumps Demo.yahoo "T1")
    as [Hweek [Hday Hnone]].
  split; [reflexivity|].
  rewrite (Hweek 3 None eq_refl),
    (Hday (Date 2019 4 7) eq_refl ltac:(discriminate)), Hnone, !get_unfold.
  repeat split.
Defined.

(** C4 as stated, for every week and every day, fails twice.  The day
    1 January 999 is written [999-01-01] by [strftime], which is not the
    ISO form [0999-01-01]; and a week of 4301 digits cannot be written out:
    the formatting raises [ValueError] and no call is made. *)
Lemma get_roster_raw_iso_counterexample :
  (valid (Date 999 1 1) = true
   /\ Spec.iso_date (Date 999 1 1) = "0999-01-01"
   /\ snd (YHandler.get_roster_raw Demo.dumps Demo.yahoo "T1" None
             (Some (Date 999 1 1)) [])
      = [Spec.get_call "team/T1/roster;date=999-01-01"]
   /\ snd (YHandler.get_roster_raw Demo.dumps Demo.yahoo "T1" None
             (Some (Date 999 1 1)) [])
      <> [Spec.get_call
            ("team/T1/roster;date=" ++ Spec.iso_date (Date 999 1 1))])
  /\ (Spec.renders_int (10 ^ 4300) = false
      /\ YHandler.get_roster_raw Demo.dumps Demo.yahoo "T1"
           (Some (10 ^ 4300)) None []
         = (Raise ValueError, [])).
Proof.
  split.
  - rewrite (roster_with_day_ymd Demo.dumps Demo.yahoo "T1" (Date 999 1 1)
               eq_refl), get_unfold.
    repeat split. intros H. discriminate H.
  - split; [exact ten_to_4300_oversized|].
    now rewrite (roster_week_oversized Demo.dumps Demo.yahoo "T1" _ None
                   ten_to_4300_oversized).
Qed.

(** Week 3 and 7 April 2019 together: the week is asked for. *)
Lemma get_roster_raw_week_wins_witness :
  Spec.renders_int 3 = true
  /\ snd (YHandler.get_roster_raw Demo.dumps Demo.yahoo "T1" (Some 3)
            (Some (Date 2019 4 7)) [])
     = [Spec.get_call "team/T1/roster;week=3"].
Proof.
  split; [reflexivity|].
  rewrite (proj1 (get_roster_raw_week_wins Demo.dumps Demo.yahoo "T1" 3
                    (Date 2019 4 7) eq_refl)), get_unfold.
  reflexivity.
Defined.

(** C9 as stated, for every week, fails on a week of 4301 digits given
    together with a day: the formatting raises [ValueError], no path is
    built and no call is made. *)
Lemma get_roster_raw_week_wins_counterexample :
  Spec.renders_int (10 ^ 4300) = false
  /\ YHandler.get_roster_raw Demo.dumps Demo.yahoo "T1" (Some (10 ^ 4300))
       (Some (Date 2019 4 7)) []
     = (Raise ValueError, [])
  /\ (forall path,
        snd (YHandler.get_roster_raw Demo.dumps Demo.yahoo "T1"
               (Some (10 ^ 4300)) (Some (Date 2019 4 7)) [])
        <> [Spec.get_call path]).
Proof.
  split; [exact ten_to_4300_oversized|].
  rewrite (roster_week_oversized Demo.dumps Demo.yahoo "T1" _
             (Some (Date 2019 4 7)) ten_to_4300_oversized).
  split; [reflexivity|]. intros path H. discriminate H.
Qed.

(** The second page of free agents, with and without a position. *)
Lemma get_players_raw_builds_path_witness :
  Spec.renders_int 25 = true
  /\ snd (YHandler.get_players_raw Demo.dumps Demo.yahoo "388.l.27081" 25
            "FA" (Some "C") [])
     = [Spec.get_call
          "league/388.l.27081/players;start=25;count=25;status=FA;position=C/percent_owned"]
  /\ snd (YHandler.get_players_raw Demo.dumps Demo.yahoo "388.l.27081" 25
            "FA" None [])
     = [Spec.get_call
          "league/388.l.27081/players;start=25;count=25;status=FA/percent_owned"].
Proof.
  split; [reflexivity|].
  rewrite (proj1 (get_players_raw_builds_path Demo.dumps Demo.yahoo
                    "388.l.27081" 25 "FA" (Some "C") eq_refl)).
  rewrite (proj1 (get_players_raw_builds_path Demo.dumps Demo.yahoo
                    "388.l.27081" 25 "FA" None eq_refl)).
  rewrite !get_unfold. split; reflexivity.
Defined.

(** C5 as stated, for every start offset, fails on an offset of 4301
    digits: the formatting raises [ValueError], no path is built and no
    call is made. *)
Lemma get_players_raw_oversized_counterexample :
  Spec.renders_int (10 ^ 4300) = false
  /\ YHandler.get_players_raw Demo.dumps Demo.yahoo "388.l.27081"
       (10 ^ 4300) "FA" None []
     = (Raise ValueError, [])
  /\ (forall path,
        snd (YHandler.get_players_raw Demo.dumps Demo.yahoo "388.l.27081"
               (10 ^ 4300) "FA" None [])
        <> [Spec.get_call path]).
Proof.
  split; [exact ten_to_4300_oversized|].
  rewrite (players_oversized Demo.dumps Demo.yahoo "388.l.27081" _ "FA" None
             ten_to_4300_oversized).
  split; [reflexivity|]. intros path H. discriminate H.
Qed.

(** League 388.l.27081 with one id given as an int and one as a string. *)
Lemma get_percent_owned_raw_builds_path_witness :
  Spec.has_dot "388.l.27081" = true
  /\ snd (YHandler.get_percent_owned_raw Demo.dumps Demo.yahoo "388.l.27081"
            [VInt 3737; VStr "6619"] [])
     = [Spec.get_call
          "league/388.l.27081/players;player_keys=388.p.3737,388.p.6619/percent_owned"].
Proof.
  destruct (get_percent_owned_raw_builds_path Demo.dumps Demo.yahoo
              "388.l.27081" eq_refl) as [_ [_ [Hpath _]]].
  split; [reflexivity|].
  rewrite (Hpath [VInt 3737; VStr "6619"] eq_refl), get_unfold. reflexivity.
Defined.

(** C3 as stated, for every league id, fails on an id without a dot.  For
    "abc" there is no dot to stop at; [find] answers [-1], the slice
    [league_id[0:-1]] is "ab", and the key asked for is "ab.p.7": neither
    the id itself nor something that a dot follows in the id. *)
Lemma get_percent_owned_raw_dotless_counterexample :
  Spec.has_dot "abc" = false
  /\ find "abc" "." = -1
  /\ slice "abc" 0 (find "abc" ".") = "ab"
  /\ Spec.before_dot "abc" = "abc"
  /\ (forall rest, "abc" <> "ab" ++ "." ++ rest)
  /\ snd (YHandler.get_percent_owned_raw Demo.dumps Demo.yahoo "abc" [VInt 7] [])
     = [Spec.get_call "league/abc/players;player_keys=ab.p.7/percent_owned"]
  /\ snd (YHandler.get_percent_owned_raw Demo.dumps Demo.yahoo "abc" [VInt 7] [])
     <> snd (YHandler.get Demo.dumps Demo.yahoo
               ("league/" ++ "abc" ++ "/players;player_keys="
                  ++ join "," (map (fun i => Spec.before_dot "abc" ++ ".p."
                                              ++ Spec.text i) [VInt 7])
                  ++ "/percent_owned") []).
Proof.
  assert (Hsent :
    snd (YHandler.get_percent_owned_raw Demo.dumps Demo.yahoo "abc" [VInt 7] [])
    = [Spec.get_call "league/abc/players;player_keys=ab.p.7/percent_owned"]).
  { rewrite (percent_owned_path Demo.dumps Demo.yahoo "abc" [VInt 7]
               eq_refl), get_unfold.
    reflexivity. }
  repeat split; try reflexivity; try exact Hsent.
  - intros rest H. discriminate H.
  - rewrite Hsent, get_unfold. cbn [snd]. intros H. discriminate H.
Qed.

End PathExamples.

(** ** Which exceptions reach the caller *)

Section Failures.
Import Py Http.

Variable dumps : jvalue -> string.
Variable sc : session.

Lemma sent_inj (h : list request) (r1 r2 : request) :
  (h ++ [r1])%list = (h ++ [r2])%list -> r1 = r2.
Proof. intros H. apply app_inv_head in H. now injection H. Qed.

Lemma sent_something (h : list request) (r : request) :
  h <> (h ++ [r])%list.
Proof.
  intros H. apply (f_equal (@List.length request)) in H.
  rewrite length_app in H. simpl in H. lia.
Qed.

(** A [get] is its one call and what is made of the answer. *)
Lemma parsed_get (uri : string) (h : list request) :
  exists req,
    req_verb req = GET
    /\ Calls.under_endpoint (req_url req) = true
    /\ Calls.parsed (YHandler.get dumps sc uri) h
       = (Calls.settle dumps GET (sc h req), (h ++ [req])%list).
Proof.
  exists (Spec.get_call uri). split; [reflexivity|].
  split; [apply api_url_under_endpoint|].
  unfold Calls.parsed, bind. rewrite get_unfold. unfold Calls.settle.
  destruct (sc h (Spec.get_call uri)) as [r|e]; [|reflexivity].
  destruct (json r) as [j|e]; [|reflexivity].
  destruct (contains "error" j) as [[|]|e]; reflexivity.
Qed.

Lemma raw_put (uri data : string) (h : list request) :
  exists req,
    req_verb req = PUT
    /\ Calls.under_endpoint (req_url req) = true
    /\ Calls.raw (YHandler.put sc uri data) h
       = (Calls.settle dumps PUT (sc h req), (h ++ [req])%list).
Proof.
  exists (Spec.put_call uri data). split; [reflexivity|].
  split; [apply api_url_under_endpoint|].
  unfold Calls.raw, bind. rewrite put_unfold. unfold Calls.settle.
  destruct (sc h (Spec.put_call uri data)) as [r|e]; [|reflexivity].
  destruct (status_code r =? 200); reflexivity.
Qed.

Lemma raw_post (uri data : string) (h : list request) :
  exists req,
    req_verb req = POST
    /\ Calls.under_endpoint (req_url req) = true
    /\ Calls.raw (YHandler.post sc uri data) h
       = (Calls.settle dumps POST (sc h req), (h ++ [req])%list).
Proof.
  exists (Spec.post_call uri data). split; [reflexivity|].
  split; [apply api_url_under_endpoint|].
  unfold Calls.raw, bind. rewrite post_unfold. unfold Calls.settle.
  destruct (sc h (Spec.post_call uri data)) as [r|e]; [|reflexivity].
  destruct (status_code r =? 201); reflexivity.
Qed.

Lemma ints_of_ids (league_id : string) (player_ids : list pyval) :
  forallb Spec.renders_int
    (Calls.ints_of (Calls.GetPercentOwnedRaw league_id player_ids))
  = forallb Spec.renders player_ids.
Proof.
  cbn [Calls.ints_of].
  induction player_ids as [|i ids IH]; [reflexivity|].
  destruct i as [s|z]; simpl; now rewrite IH.
Qed.

(** Runs the formatting down to the [get], [put] or [post]. *)
Ltac to_call :=
  do 3 format_step;
  first [ apply parsed_get | apply raw_put | apply raw_post | reflexivity ].

(** Every operation either cannot write out one of its int arguments, and
    then raises [ValueError] before it calls the session, or makes one
    call and settles on its answer. *)
Lemma run_shape (op : Calls.operation) (h : list request) :
  (forallb Spec.renders_int (Calls.ints_of op) = false
   /\ Calls.run dumps sc op h = (Raise ValueError, h))
  \/ (forallb Spec.renders_int (Calls.ints_of op) = true
      /\ exists req,
           req_verb req = Calls.verb_of op
           /\ Calls.under_endpoint (req_url req) = true
           /\ Calls.run dumps sc op h
              = (Calls.settle dumps (Calls.verb_of op) (sc h req),
                 (h ++ [req])%list)).
Proof.
  destruct op as [uri|uri data|uri data| |league_id|league_id
                 |team_key week|team_key week day|league_id week
                 |league_id start status position|league_id player_name
                 |league_id player_ids|team_key xml|league_id xml];
    cbn [Calls.run Calls.verb_of].
  - right. split; [reflexivity | apply parsed_get].
  - right. split; [reflexivity | apply raw_put].
  - right. split; [reflexivity | apply raw_post].
  - right. split; [reflexivity | apply parsed_get].
  - right. split; [reflexivity|].
    unfold YHandler.get_standings_raw. to_call.
  - right. split; [reflexivity|].
    unfold YHandler.get_settings_raw. to_call.
  - cbn [Calls.ints_of forallb]. rewrite andb_true_r.
    destruct (Spec.renders_int week) eqn:Hw; [right | left];
      (split; [reflexivity|]); unfold YHandler.get_matchup_raw; to_call.
  - destruct week as [w|]; cbn [Calls.ints_of forallb].
    + rewrite andb_true_r.
      destruct (Spec.renders_int w) eqn:Hw; [right | left];
        (split; [reflexivity|]); unfold YHandler.get_roster_raw; to_call.
    + right. split; [reflexivity|].
      destruct day as [d|]; unfold YHandler.get_roster_raw; to_call.
  - destruct week as [w|]; cbn [Calls.ints_of forallb].
    + rewrite andb_true_r.
      destruct (Spec.renders_int w) eqn:Hw; [right | left];
        (split; [reflexivity|]); unfold YHandler.get_scoreboard_raw;
        to_call.
    + right. split; [reflexivity|].
      unfold YHandler.get_scoreboard_raw. to_call.
  - cbn [Calls.ints_of forallb]. rewrite andb_true_r.
    destruct (Spec.renders_int start) eqn:Hs; [right | left];
      (split; [reflexivity|]); unfold YHandler.get_players_raw;
      destruct position as [p|]; to_call.
  - right. split; [reflexivity|].
    destruct player_name as [n|]; unfold YHandler.get_player_raw; to_call.
  - rewrite ints_of_ids.
    destruct (forallb Spec.renders player_ids) eqn:Hr; [right | left];
      (split; [reflexivity|]).
    + rewrite (percent_owned_path dumps sc league_id player_ids Hr).
      apply parsed_get.
    + now rewrite (percent_owned_oversized dumps sc league_id player_ids Hr).
  - right. split; [reflexivity|]. unfold YHandler.put_roster. to_call.
  - right. split; [reflexivity|].
    unfold YHandler.post_transactions. to_call.
Qed.

Lemma oversized_int (l : list Z) :
  forallb Spec.renders_int l = false
  <-> exists z, In z l /\ Spec.renders_int z = false.
Proof.
  split.
  - induction l as [|z l IH]; [discriminate|]. cbn [forallb]. intros H.
    destruct (Spec.renders_int z) eqn:Hz.
    + destruct (IH H) as [z' [Hin Hz']]. exists z'. split; [now right|easy].
    + exists z. split; [now left | assumption].
  - intros [z [Hin Hz]]. destruct (forallb Spec.renders_int l) eqn:E;
      [|reflexivity].
    rewrite forallb_forall in E. specialize (E z Hin). congruence.
Qed.

(** C7, as the code has it, for every operation of the handler.  The
    handler raises one kind of exception of its own, [RuntimeError]: with
    [json.dumps] of the parsed body when a GET finds "error" in it, with
    [response.content] when a PUT is not answered with 200 or a POST not
    with 201.  Every other exception that comes out is the one raised by
    the session call or by [response.json()], the [TypeError] of the [in]
    test on a parsed body that is no container, or the [ValueError] of an
    int argument that Python cannot write out, raised before any call; and
    each of these does come out, unchanged, whenever it is raised. *)
Theorem handler_raises_runtime_error_only (op : Calls.operation)
    (h : list request) :
  (forall e, fst (Calls.run dumps sc op h) = Raise e ->
     (e = ValueError
      /\ snd (Calls.run dumps sc op h) = h
      /\ exists z, In z (Calls.ints_of op) /\ Spec.renders_int z = false)
     \/ exists req,
          snd (Calls.run dumps sc op h) = (h ++ [req])%list
          /\ (sc h req = Raise e
              \/ exists r, sc h req = Return r
                   /\ ((Calls.verb_of op = GET /\ json r = Raise e)
                       \/ (Calls.verb_of op = GET
                           /\ exists j, json r = Return j
                                /\ Calls.scalar j = true /\ e = TypeError)
                       \/ (Calls.verb_of op = GET
                           /\ exists j, json r = Return j
                                /\ contains "error" j = Return true
                                /\ e = RuntimeError (PStr (dumps j)))
                       \/ (Calls.verb_of op = PUT
                           /\ status_code r <> 200
                           /\ e = RuntimeError (PBytes (content r)))
                       \/ (Calls.verb_of op = POST
                           /\ status_code r <> 201
                           /\ e = RuntimeError (PBytes (content r))))))
  /\ (forall req e,
        snd (Calls.run dumps sc op h) = (h ++ [req])%list ->
        sc h req = Raise e ->
        fst (Calls.run dumps sc op h) = Raise e)
  /\ (forall req r e,
        snd (Calls.run dumps sc op h) = (h ++ [req])%list ->
        sc h req = Return r -> Calls.verb_of op = GET ->
        json r = Raise e ->
        fst (Calls.run dumps sc op h) = Raise e)
  /\ (forall req r j,
        snd (Calls.run dumps sc op h) = (h ++ [req])%list ->
        sc h req = Return r -> Calls.verb_of op = GET ->
        json r = Return j -> Calls.scalar j = true ->
        fst (Calls.run dumps sc op h) = Raise TypeError)
  /\ (forall z,
        In z (Calls.ints_of op) -> Spec.renders_int z = false ->
        Calls.run dumps sc op h = (Raise ValueError, h)).
Proof.
  destruct (run_shape op h) as [[Hover Hrun]|[Hfit [req0 [Hv [_ Hrun]]]]];
    rewrite Hrun; cbn [fst snd].
  - split; [|split; [|split; [|split]]].
    + intros e He. injection He as <-. left.
      split; [reflexivity|]. split; [reflexivity|].
      now apply oversized_int.
    + intros req e H. now apply sent_something in H.
    + intros req r e H. now apply sent_something in H.
    + intros req r j H. now apply sent_something in H.
    + reflexivity.
  - split; [|split; [|split; [|split]]].
    + intros e He. right. exists req0. split; [reflexivity|].
      unfold Calls.settle in He.
      destruct (sc h req0) as [r|e0]; [|left; congruence].
      right. exists r. split; [reflexivity|].
      destruct (Calls.verb_of op) eqn:Hverb.
      * destruct (json r) as [j|e1] eqn:Hjson; [|left; split; congruence].
        destruct (contains "error" j) as [[|]|e2] eqn:Hin.
        -- right. right. left. split; [reflexivity|]. exists j.
           injection He as <-. now repeat split.
        -- discriminate He.
        -- right. left. split; [reflexivity|]. exists j.
           injection He as <-.
           destruct j; simpl in Hin; try discriminate Hin;
             injection Hin as <-; now repeat split.
      * destruct (Z.eqb_spec (status_code r) 200) as [E|N];
          [discriminate He|].
        right. right. right. left. injection He as <-. now repeat split.
      * destruct (Z.eqb_spec (status_code r) 201) as [E|N];
          [discriminate He|].
        right. right. right. right. injection He as <-. now repeat split.
    + intros req e H Hsc. apply sent_inj in H. subst req0.
      now rewrite Hsc.
    + intros req r e H Hsc Hget Hjson. apply sent_inj in H. subst req0.
      rewrite Hsc, Hget. cbn [Calls.settle]. now rewrite Hjson.
    + intros req r j H Hsc Hget Hjson Hscalar. apply sent_inj in H.
      subst req0. rewrite Hsc, Hget. cbn [Calls.settle]. rewrite Hjson.
      destruct j; try discriminate Hscalar; reflexivity.
    + intros z Hin Hz. exfalso.
      assert (forallb Spec.renders_int (Calls.ints_of op) = false)
        by (apply oversized_int; now exists z).
      congruence.
Qed.

End Failures.

(** ** The remaining getters *)

Section MorePaths.
Import Py Http.

Variable dumps : jvalue -> string.
Variable sc : session.

(** X1. [get_standings_raw] and [get_settings_raw] ask for
    [league/{league_id}/standings] and [league/{league_id}/settings], for
    every league id, which is put into the path as it is. *)
Theorem league_getters_build_path (league_id : string) :
  YHandler.get_standings_raw dumps sc league_id
  = YHandler.get dumps sc ("league/" ++ league_id ++ "/standings")
  /\ YHandler.get_settings_raw dumps sc league_id
     = YHandler.get dumps sc ("league/" ++ league_id ++ "/settings").
Proof.
  split; [unfold YHandler.get_standings_raw | unfold YHandler.get_settings_raw];
    format_path.
Qed.

Lemma matchup_path (team_key : string) (week : Z) :
  Spec.renders_int week = true ->
  YHandler.get_matchup_raw dumps sc team_key week
  = YHandler.get dumps sc
      ("team/" ++ team_key ++ "/matchups;weeks=" ++ Spec.decimal week).
Proof. intros Hw. unfold YHandler.get_matchup_raw. format_path. Qed.

Lemma matchup_oversized (team_key : string) (week : Z) :
  Spec.renders_int week = false ->
  YHandler.get_matchup_raw dumps sc team_key week = raise ValueError.
Proof. intros Hw. unfold YHandler.get_matchup_raw. format_path. Qed.

(** X2. For a week that Python can write out (at most 4300 digits),
    [get_matchup_raw] asks for [team/{team_key}/matchups;weeks={week}] with
    the week as its decimal numeral; for a longer one the formatting raises
    [ValueError] and no call is made. *)
Theorem get_matchup_raw_builds_path (team_key : string) (week : Z) :
  (Spec.renders_int week = true ->
     YHandler.get_matchup_raw dumps sc team_key week
     = YHandler.get dumps sc
         ("team/" ++ team_key ++ "/matchups;weeks=" ++ Spec.decimal week))
  /\ (Spec.renders_int week = false ->
      forall h,
        YHandler.get_matchup_raw dumps sc team_key week h
        = (Raise ValueError, h)).
Proof.
  split.
  - apply matchup_path.
  - intros Hw h. now rewrite matchup_oversized.
Qed.

Lemma scoreboard_with_week (league_id : string) (w : Z) :
  Spec.renders_int w = true ->
  YHandler.get_scoreboard_raw dumps sc league_id (Some w)
  = YHandler.get dumps sc
      ("league/" ++ league_id ++ "/scoreboard;week=" ++ Spec.decimal w).
Proof. intros Hw. unfold YHandler.get_scoreboard_raw. format_path. Qed.

Lemma scoreboard_week_oversized (league_id : string) (w : Z) :
  Spec.renders_int w = false ->
  YHandler.get_scoreboard_raw dumps sc league_id (Some w) = raise ValueError.
Proof. intros Hw. unfold YHandler.get_scoreboard_raw. format_path. Qed.

Lemma scoreboard_without_week (league_id : string) :
  YHandler.get_scoreboard_raw dumps sc league_id None
  = YHandler.get dumps sc ("league/" ++ league_id ++ "/scoreboard").
Proof. unfold YHandler.get_scoreboard_raw. format_path. Qed.

(** X3. [get_scoreboard_raw] asks for
    [league/{league_id}/scoreboard;week={week}], the week as its decimal
    numeral, when a week that Python can write out is given, week 0
    included, and for [league/{league_id}/scoreboard] when it is [None]. *)
Theorem get_scoreboard_raw_builds_path (league_id : string) :
  (forall w, Spec.renders_int w = true ->
     YHandler.get_scoreboard_raw dumps sc league_id (Some w)
     = YHandler.get dumps sc
         ("league/" ++ league_id ++ "/scoreboard;week=" ++ Spec.decimal w))
  /\ YHandler.get_scoreboard_raw dumps sc league_id None
     = YHandler.get dumps sc ("league/" ++ league_id ++ "/scoreboard").
Proof.
  split; [intros w Hw; now apply scoreboard_with_week|].
  apply scoreboard_without_week.
Qed.

(** X4. With no player id, [get_percent_owned_raw] still makes its request, with
    an empty key list: [league/{league_id}/players;player_keys=/percent_owned],
    whether the league id has a dot or not. *)
Theorem get_percent_owned_raw_without_ids (league_id : string) :
  YHandler.get_percent_owned_raw dumps sc league_id []
  = YHandler.get dumps sc
      ("league/" ++ league_id ++ "/players;player_keys=/percent_owned").
Proof.
  now rewrite (percent_owned_path dumps sc league_id [] eq_refl).
Qed.

(** X5. For a league id of ASCII characters without a dot, [find] is [-1]
    and the prefix of the player keys is the league id without its last
    character; the ids are written as in C3. *)
Theorem get_percent_owned_raw_dotless_prefix (league_id : string)
    (player_ids : list pyval)
    (Hascii : Spec.is_ascii league_id = true)
    (Hnodot : Spec.has_dot league_id = false)
    (Hids : forallb Spec.renders player_ids = true) :
  YHandler.get_percent_owned_raw dumps sc league_id player_ids
  = YHandler.get dumps sc
      ("league/" ++ league_id ++ "/players;player_keys="
         ++ join ","
              (map (fun i => substring 0 (length league_id - 1) league_id
                             ++ ".p." ++ Spec.text i) player_ids)
         ++ "/percent_owned").
Proof.
  rewrite (percent_owned_path dumps sc league_id player_ids Hids).
  now rewrite (slice_find_no_dot league_id Hnodot).
Qed.

End MorePaths.

(** Week 7 of team T1: the numeral is "7", and week 12 is "12". *)
Lemma get_matchup_raw_builds_path_witness :
  snd (YHandler.get_matchup_raw Demo.dumps Demo.yahoo "T1" 7 [])
    = [Spec.get_call "team/T1/matchups;weeks=7"]
  /\ snd (YHandler.get_matchup_raw Demo.dumps Demo.yahoo "T1" 12 [])
     = [Spec.get_call "team/T1/matchups;weeks=12"]
  /\ YHandler.get_matchup_raw Demo.dumps Demo.yahoo "T1" (10 ^ 4300) []
     = (Py.Raise Py.ValueError, []).
Proof.
  rewrite (proj1 (get_matchup_raw_builds_path Demo.dumps Demo.yahoo "T1" 7)
             eq_refl).
  rewrite (proj1 (get_matchup_raw_builds_path Demo.dumps Demo.yahoo "T1" 12)
             eq_refl).
  rewrite !get_unfold. split; [reflexivity|]. split; [reflexivity|].
  exact (proj2 (get_matchup_raw_builds_path Demo.dumps Demo.yahoo "T1"
                  (10 ^ 4300)) ten_to_4300_oversized []).
Defined.

(** The scoreboard of week 0 and of week 16. *)
Lemma get_scoreboard_raw_builds_path_witness :
  snd (YHandler.get_scoreboard_raw Demo.dumps Demo.yahoo "388.l.27081"
         (Some 0) [])
    = [Spec.get_call "league/388.l.27081/scoreboard;week=0"]
  /\ snd (YHandler.get_scoreboard_raw Demo.dumps Demo.yahoo "388.l.27081"
            (Some 16) [])
     = [Spec.get_call "league/388.l.27081/scoreboard;week=16"].
Proof.
  rewrite (proj1 (get_scoreboard_raw_builds_path Demo.dumps Demo.yahoo
                    "388.l.27081") 0 eq_refl).
  rewrite (proj1 (get_scoreboard_raw_builds_path Demo.dumps Demo.yahoo
                    "388.l.27081") 16 eq_refl).
  rewrite !get_unfold. split; reflexivity.
Defined.

(** "abc" has no dot: the keys start with "ab". *)
Lemma get_percent_owned_raw_dotless_prefix_witness :
  Spec.is_ascii "abc" = true
  /\ Spec.has_dot "abc" = false
  /\ YHandler.get_percent_owned_raw Demo.dumps Demo.yahoo "abc"
       [Py.VInt 7; Py.VStr "8"]
     = YHandler.get Demo.dumps Demo.yahoo
         "league/abc/players;player_keys=ab.p.7,ab.p.8/percent_owned".
Proof.
  split; [reflexivity|]. split; [reflexivity|].
  exact (get_percent_owned_raw_dotless_prefix Demo.dumps Demo.yahoo "abc"
           [Py.VInt 7; Py.VStr "8"] eq_refl eq_refl eq_refl).
Defined.

(** ** The exceptions on concrete answers *)

Section FailureExamples.
Import Py Http.

(** A roster move when the transport fails: the session's exception comes
    out of [put_roster]; and a matchup whose parsed body is [null]: the
    [TypeError] of the [in] test comes out. *)
Lemma handler_raises_runtime_error_only_witness :
  fst (Calls.run Demo.dumps Demo.unreachable
         (Calls.PutRoster "T1" "<fantasy_content/>") [])
    = Raise (Exn "ConnectionError" None)
  /\ fst (Calls.run Demo.dumps
            (Demo.always (Demo.json_response 200 JNull))
            (Calls.GetMatchupRaw "T1" 3) [])
     = Raise TypeError.
Proof.
  split.
  - exact (proj1 (proj2 (handler_raises_runtime_error_only Demo.dumps
                           Demo.unreachable
                           (Calls.PutRoster "T1" "<fantasy_content/>") []))
             (Spec.put_call "team/T1/roster" "<fantasy_content/>")
             (Exn "ConnectionError" None) eq_refl eq_refl).
  - exact (proj1 (proj2 (proj2 (proj2
             (handler_raises_runtime_error_only Demo.dumps
                (Demo.always (Demo.json_response 200 JNull))
                (Calls.GetMatchupRaw "T1" 3) []))))
             (Spec.get_call "team/T1/matchups;weeks=3")
             (Demo.json_response 200 JNull) JNull
             eq_refl eq_refl eq_refl eq_refl eq_refl).
Defined.

(** C7 as stated fails: other kinds of exception do reach the caller.  A
    body that is the JSON value [null] makes the [in] test of [get] raise
    [TypeError]; a body that is not JSON makes [json()] raise its decoding
    error; a transport failure of the session comes out of [put] and [post]
    as it is; and a week of 4301 digits makes [get_matchup_raw] raise the
    [ValueError] of the formatting.  None of them is a [RuntimeError]. *)
Lemma single_error_kind_counterexample :
  (fst (YHandler.get Demo.dumps (Demo.always (Demo.json_response 200 JNull))
          "league/L1/standings" [])
     = Raise TypeError
   /\ exn_class TypeError <> "RuntimeError")
  /\ (fst (YHandler.get Demo.dumps (Demo.always (Demo.html_response 500))
             "league/L1/standings" [])
        = Raise (Exn "JSONDecodeError" None)
      /\ exn_class (Exn "JSONDecodeError" None) <> "RuntimeError")
  /\ (fst (YHandler.put Demo.unreachable "team/T1/roster"
             "<fantasy_content/>" [])
        = Raise (Exn "ConnectionError" None)
      /\ fst (YHandler.post Demo.unreachable "league/L1/transactions"
                "<fantasy_content/>" [])
         = Raise (Exn "ConnectionError" None)
      /\ exn_class (Exn "ConnectionError" None) <> "RuntimeError")
  /\ (fst (YHandler.get_matchup_raw Demo.dumps Demo.yahoo "T1" (10 ^ 4300)
             [])
        = Raise ValueError
      /\ exn_class ValueError <> "RuntimeError").
Proof.
  rewrite !get_unfold, put_unfold, post_unfold.
  rewrite (matchup_oversized Demo.dumps Demo.yahoo "T1" _
             ten_to_4300_oversized).
  repeat split; intros H; discriminate H.
Qed.

End FailureExamples.

(** ** The examples of the specification *)

Section SpecExamples.
Import Py Http.

(** [get_roster_raw("T1", week=3)] makes one GET of
    [.../fantasy/v2/team/T1/roster;week=3] with [format=json] and returns
    the parsed body. *)
Example roster_week_3 :
  YHandler.get_roster_raw Demo.dumps Demo.yahoo "T1" (Some 3) None []
  = (Return Demo.ok_body,
     [Request GET
        "https://fantasysports.yahooapis.com/fantasy/v2/team/T1/roster;week=3"
        [("format", "json")] None []]).
Proof.
  rewrite (roster_with_week Demo.dumps Demo.yahoo "T1" 3 None eq_refl),
    get_unfold.
  reflexivity.
Qed.

(** Braces in an argument are text, not fields. *)
Example braces_in_argument :
  format "league/{}/standings" [VStr "{}{"] = Return "league/{}{/standings".
Proof. reflexivity. Qed.

(** The numerals of some ints, as Python writes them and as they are read
    off the number. *)
Example numerals :
  str (VInt 0) = Return "0"
  /\ str (VInt 25) = Return "25"
  /\ str (VInt (-3)) = Return "-3"
  /\ Spec.decimal 0 = "0"
  /\ Spec.decimal 4300 = "4300"
  /\ Spec.decimal (-120) = "-120".
Proof. repeat split. Qed.

End SpecExamples.

(** ** One call, under the endpoint *)

Section OneCall.
Import Py Http.

Variable dumps : jvalue -> string.
Variable sc : session.

(** X6. Formatting a path raises only for an int argument that Python
    cannot write out.  Otherwise, whatever the arguments, each convenience
    method is a [get], a [put] or a [post] on some path, and nothing
    else. *)
Theorem convenience_methods_delegate :
  YHandler.get_teams_raw dumps sc
    = YHandler.get dumps sc "users;use_login=1/games/teams"
  /\ (forall league_id, exists path,
        YHandler.get_standings_raw dumps sc league_id
        = YHandler.get dumps sc path)
  /\ (forall league_id, exists path,
        YHandler.get_settings_raw dumps sc league_id
        = YHandler.get dumps sc path)
  /\ (forall team_key week, Spec.renders_int week = true -> exists path,
        YHandler.get_matchup_raw dumps sc team_key week
        = YHandler.get dumps sc path)
  /\ (forall team_key w day, Spec.renders_int w = true -> exists path,
        YHandler.get_roster_raw dumps sc team_key (Some w) day
        = YHandler.get dumps sc path)
  /\ (forall team_key day, exists path,
        YHandler.get_roster_raw dumps sc team_key None day
        = YHandler.get dumps sc path)
  /\ (forall league_id w, Spec.renders_int w = true -> exists path,
        YHandler.get_scoreboard_raw dumps sc league_id (Some w)
        = YHandler.get dumps sc path)
  /\ (forall league_id, exists path,
        YHandler.get_scoreboard_raw dumps sc league_id None
        = YHandler.get dumps sc path)
  /\ (forall league_id start status position,
        Spec.renders_int start = true -> exists path,
        YHandler.get_players_raw dumps sc league_id start status position
        = YHandler.get dumps sc path)
  /\ (forall league_id player_name, exists path,
        YHandler.get_player_raw dumps sc league_id player_name
        = YHandler.get dumps sc path)
  /\ (forall league_id player_ids,
        forallb Spec.renders player_ids = true -> exists path,
        YHandler.get_percent_owned_raw dumps sc league_id player_ids
        = YHandler.get dumps sc path)
  /\ (forall team_key xml, exists path,
        YHandler.put_roster sc team_key xml = YHandler.put sc path xml)
  /\ (forall league_id xml, exists path,
        YHandler.post_transactions sc league_id xml
        = YHandler.post sc path xml)
  /\ (forall op h,
        forallb Spec.renders_int (Calls.ints_of op) = false ->
        Calls.run dumps sc op h = (Raise ValueError, h)).
Proof.
  repeat apply conj.
  - reflexivity.
  - intros league_id. eexists. unfold YHandler.get_standings_raw.
    format_path.
  - intros league_id. eexists. unfold YHandler.get_settings_raw.
    format_path.
  - intros team_key week Hw. eexists. now apply matchup_path.
  - intros team_key w day Hw. eexists. now apply roster_with_week.
  - intros team_key [d|]; eexists; unfold YHandler.get_roster_raw;
      format_path.
  - intros league_id w Hw. eexists. now apply scoreboard_with_week.
  - intros league_id. eexists. apply scoreboard_without_week.
  - intros league_id start status [p|] Hs; eexists;
      unfold YHandler.get_players_raw; format_path.
  - intros league_id [n|]; eexists; unfold YHandler.get_player_raw;
      format_path.
  - intros league_id player_ids Hr. eexists. now apply percent_owned_path.
  - intros team_key xml. eexists. unfold YHandler.put_roster. format_path.
  - intros league_id xml. eexists. unfold YHandler.post_transactions.
    format_path.
  - intros op h Hover.
    destruct (run_shape dumps sc op h) as [[_ Hrun]|[Hfit _]];
      [assumption | congruence].
Qed.

Lemma get_one_call (uri : string) :
  Calls.one_call GET (YHandler.get dumps sc uri).
Proof.
  intros h. exists (Spec.get_call uri). rewrite get_unfold.
  repeat split. apply api_url_under_endpoint.
Qed.

Lemma put_one_call (uri data : string) :
  Calls.one_call PUT (YHandler.put sc uri data).
Proof.
  intros h. exists (Spec.put_call uri data). rewrite put_unfold.
  repeat split. apply api_url_under_endpoint.
Qed.

Lemma post_one_call (uri data : string) :
  Calls.one_call POST (YHandler.post sc uri data).
Proof.
  intros h. exists (Spec.post_call uri data). rewrite post_unfold.
  repeat split. apply api_url_under_endpoint.
Qed.

(** X7. Every operation of the handler makes at most one call on the
    session.  When its int arguments can be written out it makes exactly
    one, whether it then returns or raises: a GET for the getters, a PUT
    for [put] and [put_roster], a POST for [post] and [post_transactions],
    always to a URL under the endpoint; nothing is retried and nothing is
    called elsewhere.  When an int argument cannot be written out it
    raises [ValueError] and makes none. *)
Theorem every_method_makes_one_call (op : Calls.operation) :
  (forall uri, Calls.one_call GET (YHandler.get dumps sc uri))
  /\ (forall uri data, Calls.one_call PUT (YHandler.put sc uri data))
  /\ (forall uri data, Calls.one_call POST (YHandler.post sc uri data))
  /\ (forallb Spec.renders_int (Calls.ints_of op) = true ->
      Calls.one_call (Calls.verb_of op) (Calls.run dumps sc op))
  /\ (forallb Spec.renders_int (Calls.ints_of op) = false ->
      forall h, Calls.run dumps sc op h = (Raise ValueError, h)).
Proof.
  split; [exact get_one_call|]. split; [exact put_one_call|].
  split; [exact post_one_call|]. split.
  - intros Hfit h.
    destruct (run_shape dumps sc op h)
      as [[Hover _]|[_ [req [Hverb [Hurl Hrun]]]]]; [congruence|].
    exists req. rewrite Hrun. now repeat split.
  - intros Hover h.
    destruct (run_shape dumps sc op h) as [[_ Hrun]|[Hfit _]];
      [assumption | congruence].
Qed.

End OneCall.

(** The roster of week 3 is one GET under the endpoint; a matchup of a week
    of 4301 digits is no call at all. *)
Lemma every_method_makes_one_call_witness :
  snd (Calls.run Demo.dumps Demo.yahoo
         (Calls.GetRosterRaw "T1" (Some 3) None) [])
    = [Spec.get_call "team/T1/roster;week=3"]
  /\ (exists r,
        snd (Calls.run Demo.dumps Demo.yahoo
               (Calls.GetRosterRaw "T1" (Some 3) None) [])
        = ([] ++ [r])%list
        /\ Http.req_verb r = Http.GET
        /\ Calls.under_endpoint (Http.req_url r) = true)
  /\ Calls.run Demo.dumps Demo.yahoo
       (Calls.GetMatchupRaw "T1" (10 ^ 4300)) []
     = (Py.Raise Py.ValueError, []).
Proof.
  split; [|split].
  - cbn [Calls.run]. unfold Calls.parsed, Http.bind.
    rewrite (roster_with_week Demo.dumps Demo.yahoo "T1" 3 None eq_refl),
      get_unfold.
    reflexivity.
  - exact (proj1 (proj2 (proj2 (proj2
             (every_method_makes_one_call Demo.dumps Demo.yahoo
                (Calls.GetRosterRaw "T1" (Some 3) None)))))
             eq_refl []).
  - apply (proj2 (proj2 (proj2 (proj2
             (every_method_makes_one_call Demo.dumps Demo.yahoo
                (Calls.GetMatchupRaw "T1" (10 ^ 4300))))))).
    cbn [Calls.ints_of forallb]. now rewrite ten_to_4300_oversized.
Defined.

(** ** Roster moves and transactions *)

Section Mutations.
Import Py Http.

Variable dumps : jvalue -> string.
Variable sc : session.

Lemma put_roster_is_put (team_key xml : string) :
  YHandler.put_roster sc team_key xml
  = YHandler.put sc ("team/" ++ team_key ++ "/roster") xml.
Proof.
  unfold YHandler.put_roster. cbn [format str].
  now rewrite bind_lift_return.
Qed.

Lemma post_transactions_is_post (league_id xml : string) :
  YHandler.post_transactions sc league_id xml
  = YHandler.post sc ("league/" ++ league_id ++ "/transactions") xml.
Proof.
  unfold YHandler.post_transactions. cbn [format str].
  now rewrite bind_lift_return.
Qed.

(** X8. [put_roster] sends the XML document, unchanged and marked
    [application/xml], in one PUT to [team/{team_key}/roster], the URL that
    [get_roster_raw] reads with no week and no day.  It returns the response
    when the session answers with status 200 and raises [RuntimeError] with
    the response content on any other status. *)
Theorem put_roster_puts_document (team_key xml : string) (h : list request) :
  snd (YHandler.put_roster sc team_key xml h)
    = (h ++ [Request PUT (Spec.api_url ("team/" ++ team_key ++ "/roster"))
               [] (Some xml) [("Content-Type", "application/xml")]])%list
  /\ snd (YHandler.get_roster_raw dumps sc team_key None None h)
    = (h ++ [Request GET (Spec.api_url ("team/" ++ team_key ++ "/roster"))
               [("format", "json")] None []])%list
  /\ (forall r,
        sc h (Spec.put_call ("team/" ++ team_key ++ "/roster") xml)
          = Return r ->
        fst (YHandler.put_roster sc team_key xml h)
        = if status_code r =? 200 then Return r
          else Raise (RuntimeError (PBytes (content r)))).
Proof.
  rewrite put_roster_is_put, put_unfold, roster_plain, get_unfold.
  repeat split. intros r Hr. cbn [fst]. now rewrite Hr.
Qed.

(** X9. [post_transactions] sends the XML document, unchanged and marked
    [application/xml], in one POST to [league/{league_id}/transactions].  It
    returns the response when the session answers with status 201 and
    raises [RuntimeError] with the response content on any other status,
    200 included. *)
Theorem post_transactions_posts_document (league_id xml : string)
    (h : list request) :
  snd (YHandler.post_transactions sc league_id xml h)
    = (h ++ [Request POST
               (Spec.api_url ("league/" ++ league_id ++ "/transactions"))
               [] (Some xml) [("Content-Type", "application/xml")]])%list
  /\ (forall r,
        sc h (Spec.post_call ("league/" ++ league_id ++ "/transactions") xml)
          = Return r ->
        (fst (YHandler.post_transactions sc league_id xml h)
         = if status_code r =? 201 then Return r
           else Raise (RuntimeError (PBytes (content r))))
        /\ (status_code r = 200 ->
            fst (YHandler.post_transactions sc league_id xml h)
            = Raise (RuntimeError (PBytes (content r))))).
Proof.
  rewrite post_transactions_is_post, post_unfold.
  split; [reflexivity|]. intros r Hr. cbn [fst]. rewrite Hr.
  split; [reflexivity|]. intros ->. reflexivity.
Qed.

End Mutations.

(** A roster move answered with 200 comes back; the same answer to a
    transaction is a failure. *)
Lemma put_roster_puts_document_witness :
  fst (YHandler.put_roster (Demo.always (Demo.xml_response 200)) "T1"
         "<fantasy_content/>" [])
  = Py.Return (Demo.xml_response 200).
Proof.
  exact (proj2 (proj2 (put_roster_puts_document Demo.dumps
                         (Demo.always (Demo.xml_response 200)) "T1"
                         "<fantasy_content/>" []))
           (Demo.xml_response 200) eq_refl).
Defined.

Lemma post_transactions_posts_document_witness :
  fst (YHandler.post_transactions (Demo.always (Demo.xml_response 200)) "L1"
         "<fantasy_content/>" [])
  = Py.Raise (Py.RuntimeError (Py.PBytes Demo.xml_bytes)).
Proof.
  exact (proj2 (proj2 (post_transactions_posts_document
                         (Demo.always (Demo.xml_response 200)) "L1"
                         "<fantasy_content/>" [])
                  (Demo.xml_response 200) eq_refl) eq_refl).
Defined.

(** ** What [get], [put] and [post] hand back *)

Section Results.
Import Py Http.

Variable dumps : jvalue -> string.
Variable sc : session.

Lemma list_contains_str (k : string) (elems : list jvalue) :
  existsb (is_str k) elems = true <-> In (JStr k) elems.
Proof.
  rewrite existsb_exists. split.
  - intros [j [Hin Hj]]. destruct j; try discriminate Hj.
    apply String.eqb_eq in Hj. now subst.
  - intros Hin. exists (JStr k). split; [assumption|].
    simpl. apply String.eqb_refl.
Qed.

Lemma str_contains_error (s : string) :
  (exists m, index 0 "error" s = Some m)
  <-> (exists m, substring m 5 s = "error").
Proof.
  split.
  - intros [m Hm]. exists m. apply (index_correct1 0 m "error" s Hm).
  - intros [m Hm]. destruct (index 0 "error" s) as [k|] eqn:Hidx.
    + now exists k.
    + exfalso. apply (index_correct3 0 m "error" s Hidx); [discriminate | |].
      * apply Nat.le_0_l.
      * exact Hm.
Qed.

(** X10. An exception raised by the session call comes out of [get], [put] and
    [post] as it is, after that one call; so does one raised by
    [response.json()] in [get]. *)
Theorem collaborator_exceptions_pass_through (uri data : string)
    (h : list request) (e : exn) :
  (sc h (Spec.get_call uri) = Raise e ->
     YHandler.get dumps sc uri h
     = (Raise e, (h ++ [Spec.get_call uri])%list))
  /\ (forall r, sc h (Spec.get_call uri) = Return r -> json r = Raise e ->
        YHandler.get dumps sc uri h
        = (Raise e, (h ++ [Spec.get_call uri])%list))
  /\ (sc h (Spec.put_call uri data) = Raise e ->
        YHandler.put sc uri data h
        = (Raise e, (h ++ [Spec.put_call uri data])%list))
  /\ (sc h (Spec.post_call uri data) = Raise e ->
        YHandler.post sc uri data h
        = (Raise e, (h ++ [Spec.post_call uri data])%list)).
Proof.
  rewrite get_unfold, put_unfold, post_unfold.
  split; [|split; [|split]].
  - now intros ->.
  - intros r -> Hj. now rewrite Hj.
  - now intros ->.
  - now intros ->.
Qed.

(** X11. The "error" test is Python's [in]: when the parsed body is an array,
    [get] raises exactly when the string "error" is one of its elements;
    when it is a string, exactly when "error" occurs in it. *)
Theorem get_searches_arrays_and_strings (uri : string) (h : list request)
    (r : response) (Hcall : sc h (Spec.get_call uri) = Return r) :
  (forall elems, json r = Return (JList elems) ->
     (In (JStr "error") elems ->
        fst (YHandler.get dumps sc uri h)
        = Raise (RuntimeError (PStr (dumps (JList elems)))))
     /\ (~ In (JStr "error") elems ->
        fst (YHandler.get dumps sc uri h) = Return (JList elems)))
  /\ (forall s, json r = Return (JStr s) ->
     ((exists m, substring m 5 s = "error") ->
        fst (YHandler.get dumps sc uri h)
        = Raise (RuntimeError (PStr (dumps (JStr s)))))
     /\ ((forall m, substring m 5 s <> "error") ->
        fst (YHandler.get dumps sc uri h) = Return (JStr s))).
Proof.
  rewrite get_unfold, Hcall. cbn [fst]. split.
  - intros elems ->. cbn [contains].
    pose proof (list_contains_str "error" elems) as Hl.
    destruct (existsb (is_str "error") elems); split; intros Hin;
      try reflexivity.
    + exfalso. apply Hin. now apply Hl.
    + apply Hl in Hin. discriminate Hin.
  - intros s ->. cbn [contains].
    pose proof (str_contains_error s) as Hs.
    destruct (index 0 "error" s) as [k|]; split; intros Hin;
      try reflexivity.
    + exfalso. destruct (proj1 Hs (ex_intro _ k eq_refl)) as [m Hm].
      exact (Hin m Hm).
    + apply Hs in Hin. destruct Hin as [m Hm]. discriminate Hm.
Qed.

(** X12. When the parsed body is [null], a boolean or a number, [get] neither
    returns it nor raises [RuntimeError]: the [in] test raises
    [TypeError]. *)
Theorem get_rejects_scalar_bodies (uri : string) (h : list request)
    (r : response) (j : jvalue)
    (Hcall : sc h (Spec.get_call uri) = Return r)
    (Hjson : json r = Return j)
    (Hscalar : Calls.scalar j = true) :
  YHandler.get dumps sc uri h
  = (Raise TypeError, (h ++ [Spec.get_call uri])%list).
Proof.
  rewrite get_unfold, Hcall, Hjson.
  destruct j; try discriminate Hscalar; reflexivity.
Qed.

(** X13. [get] looks at nothing but [json()]: two responses with the same
    parsed body give the same result, whatever their status codes and
    contents. *)
Theorem get_ignores_status_and_content (sc' : session) (uri : string)
    (h : list request) (r r' : response)
    (Hcall : sc h (Spec.get_call uri) = Return r)
    (Hcall' : sc' h (Spec.get_call uri) = Return r')
    (Hsame : json r = json r') :
  YHandler.get dumps sc uri h = YHandler.get dumps sc' uri h.
Proof.
  rewrite !get_unfold, Hcall, Hcall', Hsame. reflexivity.
Qed.

(** X14. What [get] returns is the parsed body of the response the session
    gave, it is a dict, a list or a string, and "error" is not in it. *)
Theorem get_returns_error_free_body (uri : string) (h : list request)
    (j : jvalue) (Hret : fst (YHandler.get dumps sc uri h) = Return j) :
  (exists r, sc h (Spec.get_call uri) = Return r /\ json r = Return j)
  /\ contains "error" j = Return false
  /\ Calls.scalar j = false
  /\ (forall items, j = JDict items -> ~ Spec.has_key "error" items).
Proof.
  rewrite get_unfold in Hret. cbn [fst] in Hret.
  destruct (sc h (Spec.get_call uri)) as [r|e0]; [|discriminate Hret].
  destruct (json r) as [j0|e1] eqn:Hjson; [|discriminate Hret].
  destruct (contains "error" j0) as [[|]|e2] eqn:Hin; try discriminate Hret.
  injection Hret as <-.
  split; [now exists r|]. split; [assumption|]. split.
  - destruct j0; try reflexivity; discriminate Hin.
  - intros items -> Hkey. apply dict_contains_key in Hkey.
    cbn [contains] in Hin. congruence.
Qed.

(** X15. What [put] returns is the response the session gave, and its status
    code is 200; for [post] it is 201. *)
Theorem put_post_return_the_session_response (uri data : string)
    (h : list request) (v : response) :
  (fst (YHandler.put sc uri data h) = Return v ->
     sc h (Spec.put_call uri data) = Return v /\ status_code v = 200)
  /\ (fst (YHandler.post sc uri data h) = Return v ->
     sc h (Spec.post_call uri data) = Return v /\ status_code v = 201).
Proof.
  rewrite put_unfold, post_unfold. cbn [fst]. split.
  - destruct (sc h (Spec.put_call uri data)) as [r|e0]; [|discriminate].
    destruct (Z.eqb_spec (status_code r) 200) as [E|N]; [|discriminate].
    intros Hv. injection Hv as <-. now split.
  - destruct (sc h (Spec.post_call uri data)) as [r|e0]; [|discriminate].
    destruct (Z.eqb_spec (status_code r) 201) as [E|N]; [|discriminate].
    intros Hv. injection Hv as <-. now split.
Qed.

End Results.

(** ** The results on concrete answers *)

Section ResultExamples.
Import Py Http.

(** A transport failure comes out of [get]; a body that is not JSON makes
    [get] raise what [json()] raised. *)
Lemma collaborator_exceptions_pass_through_witness :
  fst (YHandler.get Demo.dumps Demo.unreachable "league/L1/standings" [])
    = Raise (Exn "ConnectionError" None)
  /\ fst (YHandler.get Demo.dumps (Demo.always (Demo.html_response 502))
            "league/L1/standings" [])
     = Raise (Exn "JSONDecodeError" None).
Proof.
  split.
  - exact (f_equal fst
             (proj1 (collaborator_exceptions_pass_through Demo.dumps
                       Demo.unreachable "league/L1/standings" EmptyString []
                       (Exn "ConnectionError" None)) eq_refl)).
  - exact (f_equal fst
             (proj1 (proj2 (collaborator_exceptions_pass_through Demo.dumps
                              (Demo.always (Demo.html_response 502))
                              "league/L1/standings" EmptyString []
                              (Exn "JSONDecodeError" None)))
                (Demo.html_response 502) eq_refl eq_refl)).
Defined.

(** An array that holds the string "error" raises; a string in which
    "error" occurs raises as well. *)
Lemma get_searches_arrays_and_strings_witness :
  fst (YHandler.get Demo.dumps
         (Demo.always
            (Demo.json_response 200 (JList [JInt 1; JStr "error"])))
         "league/L1/standings" [])
    = Raise (RuntimeError
               (PStr (Demo.dumps (JList [JInt 1; JStr "error"]))))
  /\ fst (YHandler.get Demo.dumps
            (Demo.always (Demo.json_response 200 (JStr "an error page")))
            "league/L1/standings" [])
     = Raise (RuntimeError (PStr (Demo.dumps (JStr "an error page")))).
Proof.
  split.
  - apply (proj1 (get_searches_arrays_and_strings Demo.dumps
                    (Demo.always
                       (Demo.json_response 200
                          (JList [JInt 1; JStr "error"])))
                    "league/L1/standings" []
                    (Demo.json_response 200 (JList [JInt 1; JStr "error"]))
                    eq_refl) _ eq_refl).
    right. left. reflexivity.
  - apply (proj2 (get_searches_arrays_and_strings Demo.dumps
                    (Demo.always
                       (Demo.json_response 200 (JStr "an error page")))
                    "league/L1/standings" []
                    (Demo.json_response 200 (JStr "an error page"))
                    eq_refl) _ eq_refl).
    exists 3%nat. reflexivity.
Defined.

(** The number 5 as a body. *)
Lemma get_rejects_scalar_bodies_witness :
  YHandler.get Demo.dumps (Demo.always (Demo.json_response 200 (JInt 5)))
    "league/L1/standings" []
  = (Raise TypeError, [Spec.get_call "league/L1/standings"]).
Proof.
  exact (get_rejects_scalar_bodies Demo.dumps
           (Demo.always (Demo.json_response 200 (JInt 5)))
           "league/L1/standings" [] (Demo.json_response 200 (JInt 5))
           (JInt 5) eq_refl eq_refl eq_refl).
Defined.

(** The same league object under 200 and under 404 with another content. *)
Lemma get_ignores_status_and_content_witness :
  YHandler.get Demo.dumps Demo.yahoo "league/L1/standings" []
  = YHandler.get Demo.dumps
      (Demo.always (Response 404 Demo.xml_bytes (Return Demo.ok_body)))
      "league/L1/standings" [].
Proof.
  exact (get_ignores_status_and_content Demo.dumps Demo.yahoo
           (Demo.always (Response 404 Demo.xml_bytes (Return Demo.ok_body)))
           "league/L1/standings" []
           (Demo.json_response 200 Demo.ok_body)
           (Response 404 Demo.xml_bytes (Return Demo.ok_body))
           eq_refl eq_refl eq_refl).
Defined.

(** The league object comes back and has no "error" key. *)
Lemma get_returns_error_free_body_witness :
  fst (YHandler.get Demo.dumps Demo.yahoo "league/L1/standings" [])
    = Return Demo.ok_body
  /\ contains "error" Demo.ok_body = Return false.
Proof.
  assert (Hret :
    fst (YHandler.get Demo.dumps Demo.yahoo "league/L1/standings" [])
    = Return Demo.ok_body) by (rewrite get_unfold; reflexivity).
  split; [exact Hret|].
  exact (proj1 (proj2 (get_returns_error_free_body Demo.dumps Demo.yahoo
                         "league/L1/standings" [] Demo.ok_body Hret))).
Defined.

(** A PUT answered with 200. *)
Lemma put_post_return_the_session_response_witness :
  fst (YHandler.put (Demo.always (Demo.xml_response 200)) "team/T1/roster"
         "<fantasy_content/>" [])
    = Return (Demo.xml_response 200)
  /\ status_code (Demo.xml_response 200) = 200.
Proof.
  assert (Hret :
    fst (YHandler.put (Demo.always (Demo.xml_response 200)) "team/T1/roster"
           "<fantasy_content/>" [])
    = Return (Demo.xml_response 200)) by (rewrite put_unfold; reflexivity).
  split; [exact Hret|].
  exact (proj2 (proj1 (put_post_return_the_session_response
                         (Demo.always (Demo.xml_response 200))
                         "team/T1/roster" "<fantasy_content/>" []
                         (Demo.xml_response 200)) Hret)).
Defined.

End ResultExamples.

(** ** Different arguments, different requests *)

Section Distinct.
Import Py Http.

Variable dumps : jvalue -> string.
Variable sc : session.

Lemma string_app_inv_head (a x y : string) : a ++ x = a ++ y -> x = y.
Proof.
  induction a as [|c a IH]; simpl; intros H; [assumption|].
  injection H as H. now apply IH.
Qed.

(** The decimal numeral of an int determines it. *)
Lemma decimal_inj (a b : Z) : decimal a = decimal b -> a = b.
Proof.
  unfold decimal. intros H. apply DecimalZ.to_int_inj.
  assert (Hparse : forall z,
    NilZero.int_of_string (NilZero.string_of_int (Z.to_int z))
    = Some (Z.to_int z)).
  { intros z. apply NilZero.isi; destruct z; simpl; try discriminate;
      intros E; injection E as E;
      exact (DecimalPos.Unsigned.to_uint_nonnil _ E). }
  pose proof (Hparse a) as Ha. rewrite H, Hparse in Ha.
  now injection Ha.
Qed.

Lemma spec_decimal_inj (a b : Z) : Spec.decimal a = Spec.decimal b -> a = b.
Proof. rewrite <- !decimal_spec. apply decimal_inj. Qed.

Lemma digit_inj (a b : Z) : Spec.digit a = Spec.digit b -> a mod 10 = b mod 10.
Proof.
  unfold Spec.digit. intros H.
  pose proof (Z.mod_pos_bound a 10 ltac:(lia)) as Ha.
  pose proof (Z.mod_pos_bound b 10 ltac:(lia)) as Hb.
  apply (f_equal N_of_ascii) in H.
  rewrite !N_ascii_embedding in H by lia. lia.
Qed.

Lemma string_cons_inj (c c' : ascii) (s s' : string) :
  String c s = String c' s' -> c = c' /\ s = s'.
Proof. intros H. injection H as Hc Hs. now split. Qed.

(** Two texts without a dash, each followed by a dash: equal wholes have
    equal parts. *)
Lemma split_at_dash (a b r1 r2 : string) :
  ~ In "-"%char (list_ascii_of_string a) ->
  ~ In "-"%char (list_ascii_of_string b) ->
  a ++ String "-" r1 = b ++ String "-" r2 -> a = b /\ r1 = r2.
Proof.
  revert b. induction a as [|c a IH]; intros b Ha Hb H.
  - destruct b as [|c' b]; simpl in H.
    + injection H as H. now split.
    + injection H as Hc _. exfalso. apply Hb. simpl. now left.
  - destruct b as [|c' b]; simpl in H.
    + injection H as Hc _. exfalso. apply Ha. simpl. now left.
    + injection H as Hc H. subst c'.
      destruct (IH b) as [E1 E2]; try assumption.
      * intros Hin. apply Ha. simpl. now right.
      * intros Hin. apply Hb. simpl. now right.
      * subst. now split.
Qed.

(** What [strftime] writes for a valid date determines the date. *)
Lemma ymd_inj (d1 d2 : date) :
  valid d1 = true -> valid d2 = true ->
  decimal (year d1) ++ "-" ++ Spec.two_digits (month d1) ++ "-"
    ++ Spec.two_digits (day d1)
  = decimal (year d2) ++ "-" ++ Spec.two_digits (month d2) ++ "-"
    ++ Spec.two_digits (day d2) ->
  d1 = d2.
Proof.
  intros V1 V2 H.
  apply valid_bounds in V1. apply valid_bounds in V2.
  destruct d1 as [y1 m1 n1], d2 as [y2 m2 n2].
  cbn [year month day] in *.
  apply split_at_dash in H;
    [|apply decimal_year_no_dash; lia | apply decimal_year_no_dash; lia].
  destruct H as [Hy H]. apply decimal_inj in Hy.
  unfold Spec.two_digits in H. cbn [append] in H.
  repeat match type of H with
         | String _ _ = String _ _ =>
             apply string_cons_inj in H;
             let Hc := fresh "Hc" in destruct H as [Hc H];
             try apply digit_inj in Hc
         end.
  assert (m1 = m2) by (Z.div_mod_to_equations; lia).
  assert (n1 = n2) by (Z.div_mod_to_equations; lia).
  now subst.
Qed.

Lemma get_call_inj (p1 p2 : string) :
  Spec.get_call p1 = Spec.get_call p2 -> p1 = p2.
Proof.
  unfold Spec.get_call, Spec.api_url. intros H. injection H as H.
  exact H.
Qed.

(** X16. The requests of [get_roster_raw] tell its arguments apart: for
    one team key, two weeks that Python can write out give the same
    request only if they are the same week, two days only if they are the
    same day, and a request for a week, one for a day and one for neither
    are never the same. *)
Theorem roster_requests_tell_arguments_apart (team_key : string)
    (h : list request) :
  (forall w1 w2,
     Spec.renders_int w1 = true -> Spec.renders_int w2 = true ->
     snd (YHandler.get_roster_raw dumps sc team_key (Some w1) None h)
     = snd (YHandler.get_roster_raw dumps sc team_key (Some w2) None h) ->
     w1 = w2)
  /\ (forall d1 d2, valid d1 = true -> valid d2 = true ->
     snd (YHandler.get_roster_raw dumps sc team_key None (Some d1) h)
     = snd (YHandler.get_roster_raw dumps sc team_key None (Some d2) h) ->
     d1 = d2)
  /\ (forall w d, valid d = true ->
     snd (YHandler.get_roster_raw dumps sc team_key (Some w) None h)
     <> snd (YHandler.get_roster_raw dumps sc team_key None (Some d) h))
  /\ (forall w,
     snd (YHandler.get_roster_raw dumps sc team_key (Some w) None h)
     <> snd (YHandler.get_roster_raw dumps sc team_key None None h))
  /\ (forall d, valid d = true ->
     snd (YHandler.get_roster_raw dumps sc team_key None (Some d) h)
     <> snd (YHandler.get_roster_raw dumps sc team_key None None h)).
Proof.
  split; [|split; [|split; [|split]]].
  - intros w1 w2 R1 R2. rewrite !roster_with_week, !get_unfold by assumption.
    cbn [snd]. intros H. apply sent_inj, get_call_inj in H.
    apply (string_app_inv_head "team/"), (string_app_inv_head team_key),
      (string_app_inv_head "/roster;week=") in H.
    now apply spec_decimal_inj.
  - intros d1 d2 V1 V2.
    rewrite !roster_with_day_ymd, !get_unfold by assumption. cbn [snd].
    intros H. apply sent_inj, get_call_inj in H.
    apply (string_app_inv_head "team/"), (string_app_inv_head team_key),
      (string_app_inv_head "/roster;date=") in H.
    now apply ymd_inj.
  - intros w d V. rewrite roster_with_day_ymd, get_unfold by assumption.
    destruct (Spec.renders_int w) eqn:R.
    + rewrite roster_with_week, get_unfold by assumption.
      cbn [snd]. intros H. apply sent_inj, get_call_inj in H.
      apply (string_app_inv_head "team/"), (string_app_inv_head team_key)
        in H.
      discriminate H.
    + rewrite roster_week_oversized by assumption. apply sent_something.
  - intros w. rewrite roster_plain, get_unfold.
    destruct (Spec.renders_int w) eqn:R.
    + rewrite roster_with_week, get_unfold by assumption.
      cbn [snd]. intros H. apply sent_inj, get_call_inj in H.
      apply (string_app_inv_head "team/"), (string_app_inv_head team_key)
        in H.
      discriminate H.
    + rewrite roster_week_oversized by assumption. apply sent_something.
  - intros d V. rewrite roster_with_day_ymd, roster_plain, !get_unfold
      by assumption.
    cbn [snd]. intros H. apply sent_inj, get_call_inj in H.
    apply (string_app_inv_head "team/"), (string_app_inv_head team_key)
      in H.
    discriminate H.
Qed.

End Distinct.

(** Weeks 3 and 4 of team T1 are asked for with different requests, and so
    are 1 January 999 and 1 January 1999. *)
Lemma roster_requests_tell_arguments_apart_witness :
  snd (YHandler.get_roster_raw Demo.dumps Demo.yahoo "T1" (Some 3) None [])
  <> snd (YHandler.get_roster_raw Demo.dumps Demo.yahoo "T1" (Some 4) None [])
  /\ snd (YHandler.get_roster_raw Demo.dumps Demo.yahoo "T1" None
            (Some (Py.Date 999 1 1)) [])
     <> snd (YHandler.get_roster_raw Demo.dumps Demo.yahoo "T1" None
               (Some (Py.Date 1999 1 1)) [])
  /\ snd (YHandler.get_roster_raw Demo.dumps Demo.yahoo "T1" None
            (Some (Py.Date 2019 4 7)) [])
     <> snd (YHandler.get_roster_raw Demo.dumps Demo.yahoo "T1" None None []).
Proof.
  split; [|split].
  - intros H.
    pose proof (proj1 (roster_requests_tell_arguments_apart Demo.dumps
                         Demo.yahoo "T1" []) 3 4 eq_refl eq_refl H) as E.
    discriminate E.
  - intros H.
    pose proof (proj1 (proj2 (roster_requests_tell_arguments_apart
                                Demo.dumps Demo.yahoo "T1" []))
                  (Py.Date 999 1 1) (Py.Date 1999 1 1) eq_refl eq_refl H)
      as E.
    discriminate E.
  - exact (proj2 (proj2 (proj2 (proj2
             (roster_requests_tell_arguments_apart Demo.dumps Demo.yahoo
                "T1" []))))
             (Py.Date 2019 4 7) eq_refl).
Defined.

(** ** An argument that is given is sent *)

Section Given.
Import Py Http.

Variable dumps : jvalue -> string.
Variable sc : session.

Lemma player_with_name (league_id n : string) :
  YHandler.get_player_raw dumps sc league_id (Some n)
  = YHandler.get dumps sc
      ("league/" ++ league_id ++ "/players;search=" ++ n ++ "/stats").
Proof. unfold YHandler.get_player_raw. format_path. Qed.

Lemma player_without_name (league_id : string) :
  YHandler.get_player_raw dumps sc league_id None
  = YHandler.get dumps sc ("league/" ++ league_id ++ "/").
Proof. unfold YHandler.get_player_raw. format_path. Qed.

(** X17. The optional arguments are tested with [is None], not for truth: a
    position or a player name that is the empty string and a week that is
    0 are sent like any other, so the request always differs from the one
    made without the argument.  (For [get_players_raw] the start offset is
    one that Python can write out: otherwise no request is made at all.) *)
Theorem given_arguments_are_sent (league_id : string) (h : list request) :
  (forall start status p, Spec.renders_int start = true ->
     snd (YHandler.get_players_raw dumps sc league_id start status
            (Some p) h)
     <> snd (YHandler.get_players_raw dumps sc league_id start status
               None h))
  /\ (forall n,
     snd (YHandler.get_player_raw dumps sc league_id (Some n) h)
     <> snd (YHandler.get_player_raw dumps sc league_id None h))
  /\ (forall w,
     snd (YHandler.get_scoreboard_raw dumps sc league_id (Some w) h)
     <> snd (YHandler.get_scoreboard_raw dumps sc league_id None h)).
Proof.
  split; [|split].
  - intros start status p Hs.
    rewrite players_with_position, players_without_position, !get_unfold
      by assumption.
    cbn [snd]. intros H. apply sent_inj, get_call_inj in H.
    apply (string_app_inv_head "league/"), (string_app_inv_head league_id),
      (string_app_inv_head "/players;start="),
      (string_app_inv_head (Spec.decimal start)),
      (string_app_inv_head ";count=25;status="),
      (string_app_inv_head status) in H.
    discriminate H.
  - intros n. rewrite player_with_name, player_without_name, !get_unfold.
    cbn [snd]. intros H. apply sent_inj, get_call_inj in H.
    apply (string_app_inv_head "league/"), (string_app_inv_head league_id)
      in H.
    discriminate H.
  - intros w. rewrite scoreboard_without_week, get_unfold.
    destruct (Spec.renders_int w) eqn:R.
    + rewrite scoreboard_with_week, get_unfold by assumption.
      cbn [snd]. intros H. apply sent_inj, get_call_inj in H.
      apply (string_app_inv_head "league/"), (string_app_inv_head league_id)
        in H.
      discriminate H.
    + rewrite scoreboard_week_oversized by assumption. apply sent_something.
Qed.

End Given.

(** The empty position, the empty name and week 0 are sent. *)
Lemma given_arguments_are_sent_witness :
  snd (YHandler.get_players_raw Demo.dumps Demo.yahoo "388.l.27081" 0 "A"
         (Some EmptyString) [])
    = [Spec.get_call
         "league/388.l.27081/players;start=0;count=25;status=A;position=/percent_owned"]
  /\ snd (YHandler.get_players_raw Demo.dumps Demo.yahoo "388.l.27081" 0 "A"
            (Some EmptyString) [])
     <> snd (YHandler.get_players_raw Demo.dumps Demo.yahoo "388.l.27081" 0
               "A" None []).
Proof.
  split.
  - rewrite (players_with_position Demo.dumps Demo.yahoo "388.l.27081" 0
               "A" EmptyString eq_refl), get_unfold.
    reflexivity.
  - exact (proj1 (given_arguments_are_sent Demo.dumps Demo.yahoo
                    "388.l.27081" []) 0 "A" EmptyString eq_refl).
Defined.
